(** * Bearer-token verification of [backend/auth.py]

    A shallow embedding of [get_signing_keys] and [verify_token] and the
    properties of the signing-key cache, the key-selection fallback, the
    issuer resolution and the exception handlers.

    Modelling choices, all of them visible in the definitions below:
    - Python values that come out of [response.json()] or of the token are
      JSON values ([json]); [None] is [JNull].  JSON numbers are restricted
      to integers.
    - [time.time()] returns a float in the source; instants are exact
      integers ([Z]) here, so [current_time + CACHE_TTL] does not round.
    - an exception does not roll the state back: a computation is a function
      [World -> (exn + A) * World].
    - the network, the clock and the [jose] library are the environment:
      variables of the section, total functions that may return an
      exception.  Every call to them is recorded in [trace].
    - [logger] calls have no effect on the result and are left out. *)

From Stdlib Require Import ZArith List String Ascii Bool Lia DecimalString.
Import ListNotations.
Local Open Scope string_scope.
Local Open Scope Z_scope.
Local Open Scope list_scope.
#[local] Set Warnings "-register-all".

(** ** Python values *)

Inductive json : Type :=
| JNull
| JBool (b : bool)
| JInt (n : Z)
| JStr (s : string)
| JArr (l : list json)
| JObj (m : list (string * json)).

(** A Python [dict] with string keys, as [json.loads] builds it. *)
Definition dict : Type := list (string * json).

(** [bool(v)]: the truth value Python gives to [v] in [if v] and [not v]. *)
Definition truthy (v : json) : bool :=
  match v with
  | JNull => false
  | JBool b => b
  | JInt n => negb (n =? 0)
  | JStr s => negb (s =? "")%string
  | JArr l => match l with [] => false | _ :: _ => true end
  | JObj m => match m with [] => false | _ :: _ => true end
  end.

(** [bool(v)] for a value read with [os.getenv]: [None] or a string. *)
Definition truthy_env (v : option string) : bool :=
  match v with
  | None => false
  | Some s => negb (s =? "")%string
  end.

(** [f"{v}"] for a value read with [os.getenv]. *)
Definition fmt (v : option string) : string :=
  match v with
  | None => "None"
  | Some s => s
  end.

Fixpoint assoc (k : string) (m : dict) : option json :=
  match m with
  | [] => None
  | (k', v) :: m' => if (k =? k')%string then Some v else assoc k m'
  end.

(** [d.get(k, default)] on a dict. *)
Definition dict_get (d : dict) (k : string) (default : json) : json :=
  match assoc k d with
  | Some v => v
  | None => default
  end.

(** [a == b] on JSON values: [True == 1], lists compare element by element,
    dicts compare as maps. *)
Fixpoint py_eq (a b : json) {struct a} : bool :=
  match a, b with
  | JNull, JNull => true
  | JBool x, JBool y => Bool.eqb x y
  | JBool x, JInt y => Z.b2z x =? y
  | JInt x, JBool y => x =? Z.b2z y
  | JInt x, JInt y => x =? y
  | JStr x, JStr y => (x =? y)%string
  | JArr x, JArr y =>
      (fix go (l1 l2 : list json) {struct l1} : bool :=
         match l1, l2 with
         | [], [] => true
         | u :: l1', v :: l2' => py_eq u v && go l1' l2'
         | _, _ => false
         end) x y
  | JObj x, JObj y =>
      (List.length x =? List.length y)%nat &&
      (fix go (m : list (string * json)) {struct m} : bool :=
         match m with
         | [] => true
         | (k, v) :: m' =>
             match assoc k y with
             | Some w => py_eq v w
             | None => false
             end && go m'
         end) x
  | _, _ => false
  end.

(** ** Exceptions *)

Inductive exn : Type :=
| HTTPException (status_code : Z) (detail : string)
| JWTError (msg : string)
| RequestException (msg : string)
| AttributeError
| TypeError
| PyException (cls : string).

(** [isinstance(e, JWTError)]. *)
Definition is_JWTError (e : exn) : bool :=
  match e with
  | JWTError _ => true
  | _ => false
  end.

(** [isinstance(e, requests.RequestException)]. *)
Definition is_RequestException (e : exn) : bool :=
  match e with
  | RequestException _ => true
  | _ => false
  end.

Definition Result (A : Type) : Type := (exn + A)%type.

(** [v.get(k, default)] on any value: only a dict has [get]. *)
Definition py_get (v : json) (k : string) (default : json) : Result json :=
  match v with
  | JObj d => inr (dict_get d k default)
  | _ => inl AttributeError
  end.

(** The items [for key in v] goes through. *)
Definition py_iter (v : json) : Result (list json) :=
  match v with
  | JArr l => inr l
  | JObj d => inr (map (fun kv => JStr (fst kv)) d)
  | JStr s => inr (map (fun c => JStr (String c EmptyString)) (list_ascii_of_string s))
  | _ => inl TypeError
  end.

(** The loop of lines 130-133 and 142-145:
    [for key in ...: if key.get("kid") == key_id: signing_key = key; break].
    [signing_key] is the value the variable holds before the loop. *)
Fixpoint find_key (ks : list json) (key_id signing_key : json) : Result json :=
  match ks with
  | [] => inr signing_key
  | key :: rest =>
      match py_get key "kid" JNull with
      | inl e => inl e
      | inr v => if py_eq v key_id then inr key else find_key rest key_id signing_key
      end
  end.

(** [for key in jwks.get("keys", []): ...] as a whole. *)
Definition scan_jwks (jwks key_id signing_key : json) : Result json :=
  match py_get jwks "keys" (JArr []) with
  | inl e => inl e
  | inr keyset =>
      match py_iter keyset with
      | inl e => inl e
      | inr ks => find_key ks key_id signing_key
      end
  end.

(** ** The state and the calls to the outside *)

(** [_signing_keys_cache = {"keys": None, "expires_at": 0}] *)
Record Cache : Type := mkCache { keys : json; expires_at : Z }.

Definition CACHE_TTL : Z := 3600.

Definition DecodeOptions : Type := list (string * bool).

Inductive event : Type :=
| EvTime                                   (* time.time() *)
| EvFetch                                  (* requests.get(JWKS_URL, timeout=10) *)
| EvHeader (token : string)                (* jwt.get_unverified_header(token) *)
| EvDecode (token : string) (key : json) (algorithms : list string)
           (audience issuer : option string) (options : DecodeOptions).

(** [ticks] counts the calls to [time.time()], [fetches] the requests sent to
    the key-publication endpoint, [trace] lists the outside calls, oldest
    first. *)
Record World : Type := mkWorld {
  _signing_keys_cache : Cache;
  ticks : nat;
  fetches : nat;
  trace : list event
}.

Definition M (A : Type) : Type := World -> Result A * World.

Definition ret {A} (a : A) : M A := fun w => (inr a, w).

Definition raise {A} (e : exn) : M A := fun w => (inl e, w).

Definition bind {A B} (m : M A) (k : A -> M B) : M B :=
  fun w =>
    match m w with
    | (inr a, w') => k a w'
    | (inl e, w') => (inl e, w')
    end.

(** [try: m  except ... as e: handler e] *)
Definition try_except {A} (m : M A) (handler : exn -> M A) : M A :=
  fun w =>
    match m w with
    | (inr a, w') => (inr a, w')
    | (inl e, w') => handler e w'
    end.

Definition lift {A} (r : Result A) : M A := fun w => (r, w).

Declare Scope py_scope.
Delimit Scope py_scope with py.
Notation "x <- m ;; k" := (bind m (fun x => k))
  (at level 61, m at next level, right associativity) : py_scope.
Notation "m ;;; k" := (bind m (fun _ => k))
  (at level 61, right associativity) : py_scope.
Local Open Scope py_scope.

Definition log (ev : event) (w : World) : World :=
  mkWorld (_signing_keys_cache w) (ticks w) (fetches w) (trace w ++ [ev]).

(** [_signing_keys_cache["keys"] = v] *)
Definition set_keys (v : json) : M unit :=
  fun w =>
    (inr tt,
     mkWorld (mkCache v (expires_at (_signing_keys_cache w)))
             (ticks w) (fetches w) (trace w)).

(** [_signing_keys_cache["expires_at"] = t] *)
Definition set_expires_at (t : Z) : M unit :=
  fun w =>
    (inr tt,
     mkWorld (mkCache (keys (_signing_keys_cache w)) t)
             (ticks w) (fetches w) (trace w)).

Definition read_cache : M Cache := fun w => (inr (_signing_keys_cache w), w).

Definition verify_options_off : DecodeOptions :=
  [("verify_signature", false); ("verify_exp", false); ("verify_aud", false)].

Definition verify_options_on : DecodeOptions :=
  [("verify_signature", true); ("verify_exp", true)].

(** ** Worlds reached from a world [w] *)

(** After [get_signing_keys] answered from the cache. *)
Definition after_cache_hit (w : World) : World :=
  mkWorld (_signing_keys_cache w) (S (ticks w)) (fetches w) (trace w ++ [EvTime]).

(** After [get_signing_keys] fetched [ks] at instant [now] and stored it. *)
Definition after_fetch (ks : json) (now : Z) (w : World) : World :=
  mkWorld (mkCache ks (now + CACHE_TTL)) (S (ticks w)) (S (fetches w))
          (trace w ++ [EvTime; EvFetch]).

(** After [get_signing_keys] sent a request that raised. *)
Definition after_failed_fetch (w : World) : World :=
  mkWorld (_signing_keys_cache w) (S (ticks w)) (S (fetches w))
          (trace w ++ [EvTime; EvFetch]).

(** After lines 138-139: [keys = None], [expires_at = 0]. *)
Definition invalidated (w : World) : World :=
  mkWorld (mkCache JNull 0) (ticks w) (fetches w) (trace w).

(** ** Observations on the trace *)

Definition is_decode (ev : event) : bool :=
  match ev with
  | EvDecode _ _ _ _ _ _ => true
  | _ => false
  end.

Fixpoint option_of (k : string) (opts : DecodeOptions) : option bool :=
  match opts with
  | [] => None
  | (k', b) :: rest => if (k =? k')%string then Some b else option_of k rest
  end.

(** A call of [jwt.decode] that checks the signature: [verify_signature] is on
    unless the options turn it off. *)
Definition verifies_signature (ev : event) : bool :=
  match ev with
  | EvDecode _ _ _ _ _ opts =>
      match option_of "verify_signature" opts with
      | Some b => b
      | None => true
      end
  | _ => false
  end.

(** The [algorithms] argument of a call of [jwt.decode]. *)
Definition algorithms_of (ev : event) : option (list string) :=
  match ev with
  | EvDecode _ _ algorithms _ _ _ => Some algorithms
  | _ => None
  end.

(** The calls made between [w] and [w'] are [evs] and all satisfy [P]. *)
Definition extends (P : event -> Prop) (w w' : World) : Prop :=
  exists evs, trace w' = trace w ++ evs /\ Forall P evs.

(** ** A concrete deployment: tenant [T1], client [C1] *)

Module Scenario.

Definition tenant : option string := Some "T1".
Definition client : option string := Some "C1".

Definition issuer_v1 : string := "https://sts.windows.net/T1/".
Definition issuer_v2 : string := "https://login.microsoftonline.com/T1/v2.0".

Definition key_K0 : json :=
  JObj [("kty", JStr "RSA"); ("kid", JStr "K0"); ("n", JStr "old-modulus")].
Definition key_K1 : json :=
  JObj [("kty", JStr "RSA"); ("kid", JStr "K1"); ("n", JStr "modulus")].
(** A key whose material declares another algorithm than RS256. *)
Definition key_K384 : json :=
  JObj [("kty", JStr "RSA"); ("kid", JStr "K384"); ("alg", JStr "RS384");
        ("n", JStr "modulus-384")].

Definition jwks_old : json := JObj [("keys", JArr [key_K0])].
Definition jwks_K1 : json := JObj [("keys", JArr [key_K0; key_K1])].
Definition jwks_K384 : json := JObj [("keys", JArr [key_K384])].

(** The clock advances by ten seconds per reading. *)
Definition clock (n : nat) : Z := 10 * Z.of_nat n.

Definition endpoint_K1 (n : nat) : Result json := inr jwks_K1.
Definition endpoint_old (n : nat) : Result json := inr jwks_old.
Definition endpoint_K384 (n : nat) : Result json := inr jwks_K384.
Definition endpoint_empty (n : nat) : Result json := inr (JObj []).
Definition endpoint_down (n : nat) : Result json :=
  inl (RequestException "connect timeout").

(** Tokens are named by what they carry. *)
Definition header_of (token : string) : Result dict :=
  if (token =? "token-K1-v1")%string then
    inr [("alg", JStr "RS256"); ("kid", JStr "K1")]
  else if (token =? "token-K1-other-issuer")%string then
    inr [("alg", JStr "RS256"); ("kid", JStr "K1")]
  else if (token =? "token-K2-v1")%string then
    inr [("alg", JStr "RS256"); ("kid", JStr "K2")]
  else if (token =? "token-K384-v2")%string then
    inr [("alg", JStr "RS256"); ("kid", JStr "K384")]
  else if (token =? "token-no-kid")%string then
    inr [("alg", JStr "RS256"); ("typ", JStr "JWT")]
  else inl (JWTError "Error decoding token headers.").

Definition claims_of (token : string) : dict :=
  if (token =? "token-K1-other-issuer")%string then
    [("iss", JStr "https://evil.example/"); ("aud", JStr "api://C1");
     ("preferred_username", JStr "mallory")]
  else if (token =? "token-K384-v2")%string then
    [("iss", JStr issuer_v2); ("aud", JStr "api://C1");
     ("preferred_username", JStr "bob")]
  else
    [("iss", JStr issuer_v1); ("aud", JStr "api://C1");
     ("preferred_username", JStr "alice")].

Definition signed_by (token : string) : json :=
  if (token =? "token-K384-v2")%string then key_K384 else key_K1.

(** A decoder: without signature check it returns the claims; with it, the
    key has to be the signing one, RS256 has to be allowed, and audience and
    issuer have to be the token's. *)
Definition decode (token : string) (key : json) (algorithms : list string)
    (audience issuer : option string) (options : DecodeOptions) : Result dict :=
  match header_of token with
  | inl e => inl e
  | inr _ =>
      match option_of "verify_signature" options with
      | Some false => inr (claims_of token)
      | _ =>
          if py_eq key (signed_by token)
             && existsb (String.eqb "RS256") algorithms
             && match audience with
                | Some a => py_eq (dict_get (claims_of token) "aud" JNull) (JStr a)
                | None => true
                end
             && match issuer with
                | Some i => py_eq (dict_get (claims_of token) "iss" JNull) (JStr i)
                | None => true
                end
          then inr (claims_of token)
          else inl (JWTError "Signature verification failed.")
      end
  end.

(** The process just started: nothing cached. *)
Definition w_start : World := mkWorld (mkCache JNull 0) 0 0 [].

(** The old key set was fetched at instant 0 and is still cached. *)
Definition w_old_cached : World :=
  mkWorld (mkCache jwks_old (0 + CACHE_TTL)) 1 1 [EvTime; EvFetch].

(** The same cache, read more than an hour later (instant 4000). *)
Definition w_old_expired : World :=
  mkWorld (mkCache jwks_old (0 + CACHE_TTL)) 400 1 [EvTime; EvFetch].

End Scenario.

(** ** The store of main.py *)

(** [findings_store]: a dict with the keys ["cloud"], ["secrets"], ["iac"],
    inserted in this order, each holding a list of findings.  The parsers
    build a new dict for every finding, so no finding is shared. *)
Record Store : Type :=
  mkStore { cloud : list dict; secrets : list dict; iac : list dict }.

(** ** Sample reports of the three scanners *)

Module Reports.

Definition timestamps (n : nat) : string := "2024-05-01T12:00:00".

(** A printer for lists and dicts that gives no detail. *)
Definition repr (v : json) : string := "<container>".

Definition check_s3 : json :=
  JObj [("check_id", JStr "CKV_AWS_18"); ("check_name", JStr "S3 access logging");
        ("severity", JStr "high"); ("resource", JStr "aws_s3_bucket.data");
        ("file_path", JStr "/main.tf"); ("file_line_range", JArr [JInt 12; JInt 30])].

(** As Checkov writes a check when it knows no severity. *)
Definition check_null_severity : json :=
  JObj [("check_id", JStr "CKV_AWS_21"); ("check_name", JStr "S3 versioning");
        ("severity", JNull); ("resource", JStr "aws_s3_bucket.data");
        ("file_path", JStr "/main.tf"); ("file_line_range", JArr [JInt 12; JInt 30])].

Definition checkov_report : json :=
  JObj [("results", JObj [("failed_checks", JArr [check_s3])])].

Definition checkov_report_null : json :=
  JObj [("results", JObj [("failed_checks", JArr [check_s3; check_null_severity])])].


Definition secret_two_places : json :=
  JObj [("secret_id", JStr "0123456789abcdef0123456789abcdef");
        ("secret_type", JStr "API Key"); ("severity", JStr "CRITICAL");
        ("secret_display", JStr "AKIA...MPLE");
        ("locations", JArr [JObj [("file", JStr "a.py"); ("line", JInt 3)];
                            JObj [("file", JStr "b.py"); ("line", JInt 9)]])].

Definition secret_no_place : json :=
  JObj [("secret_id", JStr "ffff"); ("secret_type", JStr "Password")].

Definition deduplicated_report : json :=
  JObj [("scan_metadata", JObj [("scan_date", JStr "2024-05-01"); ("repo_name", JStr "shop")]);
        ("secrets", JArr [secret_two_places; secret_no_place])].

(** Secrets without the metadata section. *)
Definition secrets_only_report : json :=
  JObj [("secrets", JArr [secret_two_places])].

Definition misconfig_sg : json :=
  JObj [("ID", JStr "AVD-AWS-0107"); ("Title", JStr "Open ingress");
        ("Severity", JStr "Critical"); ("Type", JStr "Terraform Security Check");
        ("CauseMetadata", JObj [("StartLine", JInt 4); ("EndLine", JInt 9)])].

Definition trivy_report : json :=
  JObj [("Results", JArr [JObj [("Target", JStr "network.tf");
                                ("Misconfigurations", JArr [misconfig_sg])]])].

Definition finding_open : dict :=
  [("rule_id", JStr "aws-access-key"); ("severity", JStr "HIGH");
   ("match", JStr "AKIA...MPLE"); ("status", JStr "open")].

Definition finding_low : dict :=
  [("check_id", JStr "CKV_AWS_18"); ("severity", JStr "low")].

(** A finding of a deduplicated report whose severity was [null]. *)
Definition finding_null_severity : dict :=
  [("rule_id", JStr "ffff"); ("severity", JNull)].

Definition store : Store := mkStore [finding_low] [finding_open] [].

Definition store_null_severity : Store := mkStore [finding_low] [finding_null_severity] [].

Definition loads (content : string) : Result json :=
  if (content =? "checkov")%string then inr checkov_report
  else if (content =? "checkov-null")%string then inr checkov_report_null
  else inl (PyException "JSONDecodeError").

End Reports.

(** ** More states of the deployment *)

Module Deployment.

(** The current key set was fetched at instant 0 and is still cached. *)
Definition w_K1_cached : World :=
  mkWorld (mkCache Scenario.jwks_K1 (0 + CACHE_TTL)) 1 1 [EvTime; EvFetch].

(** An endpoint that answers with the bare array of keys. *)
Definition endpoint_array (n : nat) : Result json :=
  inr (JArr [Scenario.key_K0; Scenario.key_K1]).

(** Another client identifier than the one the tokens were issued for. *)
Definition other_client : option string := Some "C2".

End Deployment.

Section Auth.

(** [os.getenv("AZURE_TENANT_ID")], [os.getenv("AZURE_CLIENT_ID")] *)
Variable AZURE_TENANT_ID : option string.
Variable AZURE_CLIENT_ID : option string.

(** The clock: the value of the [n]-th call to [time.time()]. *)
Variable time_at : nat -> Z.

(** The key-publication endpoint: what
    [requests.get(JWKS_URL, timeout=10)], [raise_for_status()] and
    [response.json()] give for the [n]-th request. *)
Variable endpoint : nat -> Result json.

(** [jose.jwt.get_unverified_header] and [jose.jwt.decode]. *)
Variable jose_get_unverified_header : string -> Result dict.
Variable jose_decode :
  string -> json -> list string -> option string -> option string ->
  DecodeOptions -> Result dict.

Definition ISSUER_V1 : string :=
  ("https://sts.windows.net/" ++ fmt AZURE_TENANT_ID ++ "/")%string.
Definition ISSUER_V2 : string :=
  ("https://login.microsoftonline.com/" ++ fmt AZURE_TENANT_ID ++ "/v2.0")%string.
Definition AUDIENCE : string := ("api://" ++ fmt AZURE_CLIENT_ID)%string.

Definition time_time : M Z :=
  fun w =>
    (inr (time_at (ticks w)),
     mkWorld (_signing_keys_cache w) (S (ticks w)) (fetches w)
             (trace w ++ [EvTime])).

Definition requests_get_json : M json :=
  fun w =>
    (endpoint (fetches w),
     mkWorld (_signing_keys_cache w) (ticks w) (S (fetches w))
             (trace w ++ [EvFetch])).

Definition jwt_get_unverified_header (token : string) : M dict :=
  fun w => (jose_get_unverified_header token, log (EvHeader token) w).

Definition jwt_decode (token : string) (key : json) (algorithms : list string)
    (audience issuer : option string) (options : DecodeOptions) : M dict :=
  fun w =>
    (jose_decode token key algorithms audience issuer options,
     log (EvDecode token key algorithms audience issuer options) w).

(** auth.py, lines 48-84 *)
Definition get_signing_keys : M json :=
  current_time <- time_time ;;
  c <- read_cache ;;
  if truthy (keys c) && (current_time <? expires_at c) then
    ret (keys c)
  else
    try_except
      (keys <- requests_get_json ;;
       set_keys keys ;;;
       set_expires_at (current_time + CACHE_TTL) ;;;
       ret keys)
      (fun e =>
         if is_RequestException e then
           raise (HTTPException 503
                    "Service unavailable - unable to fetch signing keys")
         else raise e).

(** auth.py, lines 114-152: the key set is requested, the header is read,
    the key is looked up, with one refresh when it is not found. *)
Definition select_signing_key (token : string) : M json :=
  jwks <- get_signing_keys ;;
  unverified_header <- jwt_get_unverified_header token ;;
  let key_id := dict_get unverified_header "kid" JNull in
  if negb (truthy key_id) then
    raise (HTTPException 401 "Invalid token format")
  else
    signing_key <- lift (scan_jwks jwks key_id JNull) ;;
    if negb (truthy signing_key) then
      set_keys JNull ;;;
      set_expires_at 0 ;;;
      jwks <- get_signing_keys ;;
      signing_key <- lift (scan_jwks jwks key_id signing_key) ;;
      if negb (truthy signing_key) then
        raise (HTTPException 401 "Invalid token signature")
      else ret signing_key
    else ret signing_key.

(** auth.py, lines 154-192: the unverified decode, the choice of the
    issuer, the verified decode.  Lines 175-179 and 191 only log, reading
    the two payloads, which are dicts, with [get]. *)
Definition validate_with_key (token : string) (signing_key : json) : M dict :=
  unverified_payload <-
    jwt_decode token signing_key ["RS256"%string] None None verify_options_off ;;
  let token_issuer := dict_get unverified_payload "iss" JNull in
  expected_issuer <-
    (if py_eq token_issuer (JStr ISSUER_V1) then ret ISSUER_V1
     else if py_eq token_issuer (JStr ISSUER_V2) then ret ISSUER_V2
     else raise (HTTPException 401 "Invalid token issuer")) ;;
  payload <-
    jwt_decode token signing_key ["RS256"%string] (Some AUDIENCE)
      (Some expected_issuer) verify_options_on ;;
  ret payload.

(** The body of the [try] block, lines 114-192. *)
Definition verify_token_body (token : string) : M dict :=
  signing_key <- select_signing_key token ;;
  validate_with_key token signing_key.

(** The two [except] clauses, lines 194-205. *)
Definition verify_token_handler (e : exn) : M dict :=
  if is_JWTError e then raise (HTTPException 401 "Invalid or expired token")
  else raise (HTTPException 401 "Authentication failed").

Definition config_missing : bool :=
  negb (truthy_env AZURE_TENANT_ID) || negb (truthy_env AZURE_CLIENT_ID).

(** auth.py, lines 87-205 *)
Definition verify_token (token : string) : M dict :=
  if config_missing then
    raise (HTTPException 500
             "Server configuration error - Azure AD not configured")
  else
    try_except (verify_token_body token) verify_token_handler.

(** ** The request-facing entry point, auth.py, lines 208-242 *)

(** [fastapi.security.HTTPAuthorizationCredentials]; as an object it is
    always true in [if not credentials], only [None] is not. *)
Record HTTPAuthorizationCredentials : Type :=
  mkCredentials { scheme : string; credentials : string }.

Definition get_current_user (creds : option HTTPAuthorizationCredentials) : M dict :=
  match creds with
  | None => raise (HTTPException 401 "Authentication required")
  | Some c =>
      let token := credentials c in
      payload <- verify_token token ;;
      ret payload
  end.

(** ** More of Python, for parsers.py and main.py

    Strings hold ASCII characters: [upper], [len] and the slices are those of
    Python on such strings. *)

Definition rbind {A B} (r : Result A) (k : A -> Result B) : Result B :=
  match r with
  | inl e => inl e
  | inr a => k a
  end.

Notation "x <-- r ;; k" := (rbind r (fun x => k))
  (at level 61, r at next level, right associativity) : py_scope.

(** The first use of [v.get] raises unless [v] is a dict. *)
Definition as_dict (v : json) : Result dict :=
  match v with
  | JObj d => inr d
  | _ => inl AttributeError
  end.

Definition upper_ascii (c : ascii) : ascii :=
  let n := nat_of_ascii c in
  if ((97 <=? n) && (n <=? 122))%nat then ascii_of_nat (n - 32) else c.

(** [s.upper()] *)
Fixpoint upper (s : string) : string :=
  match s with
  | EmptyString => EmptyString
  | String c s' => String (upper_ascii c) (upper s')
  end.

(** [v.upper()]: only a str has it. *)
Definition py_upper (v : json) : Result string :=
  match v with
  | JStr s => inr (upper s)
  | _ => inl AttributeError
  end.

(** [s[-n:]] on a str. *)
Definition last_chars (n : nat) (s : string) : string :=
  substring (String.length s - n) n s.

(** [l[-n:]] on a list. *)
Definition lastn {A} (n : nat) (l : list A) : list A :=
  skipn (List.length l - n) l.

(** [v[:n]].  A dict cannot be sliced ([TypeError] up to Python 3.11, a
    [KeyError] after); nothing below depends on which of the two it is. *)
Definition py_slice_to (n : nat) (v : json) : Result json :=
  match v with
  | JStr s => inr (JStr (substring 0 n s))
  | JArr l => inr (JArr (firstn n l))
  | _ => inl TypeError
  end.

(** [v[-n:]] *)
Definition py_slice_last (n : nat) (v : json) : Result json :=
  match v with
  | JStr s => inr (JStr (last_chars n s))
  | JArr l => inr (JArr (lastn n l))
  | _ => inl TypeError
  end.

(** [v[0]] *)
Definition py_index0 (v : json) : Result json :=
  match v with
  | JArr (x :: _) => inr x
  | JArr [] => inl (PyException "IndexError")
  | JStr (String c _) => inr (JStr (String c EmptyString))
  | JStr EmptyString => inl (PyException "IndexError")
  | JObj _ => inl (PyException "KeyError")
  | _ => inl TypeError
  end.

(** [len(v)] *)
Definition py_len (v : json) : Result nat :=
  match v with
  | JStr s => inr (String.length s)
  | JArr l => inr (List.length l)
  | JObj d => inr (List.length d)
  | _ => inl TypeError
  end.

(** [k in s] on strs: [k] occurs in [s]. *)
Fixpoint contains (k s : string) : bool :=
  prefix k s
  || match s with
     | EmptyString => false
     | String _ s' => contains k s'
     end.

(** [k in v] for a str [k]: a key of a dict, an item of a list, a part of a
    str. *)
Definition py_in (k : string) (v : json) : Result bool :=
  match v with
  | JObj d => inr (match assoc k d with Some _ => true | None => false end)
  | JArr l => inr (existsb (fun x => py_eq (JStr k) x) l)
  | JStr s => inr (contains k s)
  | _ => inl TypeError
  end.

(** [d[k]] on a dict. *)
Definition dict_index (d : dict) (k : string) : Result json :=
  match assoc k d with
  | Some v => inr v
  | None => inl (PyException "KeyError")
  end.

(** [d[k] = v] on a dict: the value is replaced where the key is, a new key
    goes to the end. *)
Fixpoint dict_set (d : dict) (k : string) (v : json) : dict :=
  match d with
  | [] => [(k, v)]
  | (k', v') :: d' =>
      if (k =? k')%string then (k', v) :: d' else (k', v') :: dict_set d' k v
  end.

(** [str(n)] on an int. *)
Definition str_of_Z (n : Z) : string := NilZero.string_of_int (Z.to_int n).

(** ** parsers.py *)

(** [datetime.now().isoformat()], as called for the [n]-th check of one
    run of [parse_checkov]. *)
Variable now_isoformat : nat -> string.

(** [repr] of a list or a dict, which [str] of such a value is. *)
Variable py_repr : json -> string.

(** [str(v)], what [f"{v}"] puts in the string. *)
Definition py_str (v : json) : string :=
  match v with
  | JNull => "None"
  | JBool true => "True"
  | JBool false => "False"
  | JInt n => str_of_Z n
  | JStr s => s
  | JArr _ | JObj _ => py_repr v
  end.

Definition severity_map : dict :=
  [("CRITICAL", JStr "CRITICAL"); ("HIGH", JStr "HIGH"); ("MEDIUM", JStr "MEDIUM");
   ("LOW", JStr "LOW"); ("INFO", JStr "INFO")].

(** parsers.py, lines 116-125 *)
Definition map_checkov_severity (severity : json) : Result json :=
  s <-- py_upper severity ;;
  inr (dict_get severity_map s (JStr "MEDIUM")).

(** parsers.py, lines 127-131 *)
Definition redact_secret (secret : json) : Result string :=
  if negb (truthy secret) then inr "***REDACTED***"%string
  else
    n <-- py_len secret ;;
    if (n <? 8)%nat then inr "***REDACTED***"%string
    else
      first4 <-- py_slice_to 4 secret ;;
      last4 <-- py_slice_last 4 secret ;;
      inr (py_str first4 ++ "..." ++ py_str last4)%string.

(** The loop of lines 11-23; [n] checks were handled before. *)
Fixpoint checkov_findings (checks : list json) (n : nat) : Result (list dict) :=
  match checks with
  | [] => inr []
  | check :: rest =>
      c <-- as_dict check ;;
      severity <-- map_checkov_severity (dict_get c "severity" (JStr "MEDIUM")) ;;
      line_number <--
        (if truthy (dict_get c "file_line_range" JNull)
         then py_index0 (dict_get c "file_line_range" (JArr [JInt 0]))
         else inr JNull) ;;
      let finding :=
        [("check_id", dict_get c "check_id" (JStr "UNKNOWN"));
         ("check_name", dict_get c "check_name" (JStr "Unknown Check"));
         ("severity", severity);
         ("resource", dict_get c "resource" (JStr "unknown"));
         ("file_path", dict_get c "file_path" (JStr ""));
         ("line_number", line_number);
         ("description", dict_get c "description" (JStr ""));
         ("remediation", dict_get c "guideline" (JStr ""));
         ("scan_timestamp", JStr (now_isoformat n))] in
      findings <-- checkov_findings rest (S n) ;;
      inr (finding :: findings)
  end.

(** parsers.py, lines 4-25 *)
Definition parse_checkov (data : json) : Result (list dict) :=
  results <-- py_get data "results" (JObj []) ;;
  failed_checks <-- py_get results "failed_checks" (JArr []) ;;
  checks <-- py_iter failed_checks ;;
  checkov_findings checks 0.

(** The inner loop of lines 50-66, for one secret [s]. *)
Fixpoint gitleaks_locations (meta s : dict) (repo_name : json) (locations : list json)
    : Result (list dict) :=
  match locations with
  | [] => inr []
  | location :: rest =>
      let secret_type := dict_get s "secret_type" (JStr "Unknown Secret Type") in
      rule_id <-- py_slice_to 16 (dict_get s "secret_id" (JStr "UNKNOWN")) ;;
      l <-- as_dict location ;;
      let finding :=
        [("rule_id", rule_id);
         ("description", JStr (py_str secret_type));
         ("severity", dict_get s "severity" (JStr "HIGH"));
         ("file_path", dict_get l "file" (JStr ""));
         ("line_number", dict_get l "line" (JInt 0));
         ("commit", JNull);
         ("author", JNull);
         ("date", dict_get meta "scan_date" (JStr ""));
         ("match", dict_get s "secret_display" (JStr "***REDACTED***"));
         ("status", dict_get s "status" (JStr "open"));
         ("secret_type", secret_type);
         ("repo_name", dict_get s "repo_name" repo_name);
         ("occurrences", dict_get s "occurrences" (JInt 1))] in
      findings <-- gitleaks_locations meta s repo_name rest ;;
      inr (finding :: findings)
  end.

(** The outer loop of lines 41-66. *)
Fixpoint gitleaks_secrets (meta : dict) (repo_name : json) (secrets : list json)
    : Result (list dict) :=
  match secrets with
  | [] => inr []
  | secret :: rest =>
      s <-- as_dict secret ;;
      locations <-- py_iter (dict_get s "locations" (JArr [])) ;;
      here <-- gitleaks_locations meta s repo_name locations ;;
      findings <-- gitleaks_secrets meta repo_name rest ;;
      inr (here ++ findings)
  end.

(** The loop of lines 71-83. *)
Fixpoint gitleaks_leaks (leaks : list json) : Result (list dict) :=
  match leaks with
  | [] => inr []
  | leak :: rest =>
      l <-- as_dict leak ;;
      commit <--
        (if truthy (dict_get l "Commit" JNull)
         then py_slice_to 8 (dict_get l "Commit" (JStr ""))
         else inr JNull) ;;
      redacted <-- redact_secret (dict_get l "Secret" (JStr "")) ;;
      let finding :=
        [("rule_id", dict_get l "RuleID" (JStr "UNKNOWN"));
         ("description", dict_get l "Description" (JStr "Secret detected"));
         ("severity", JStr "HIGH");
         ("file_path", dict_get l "File" (JStr ""));
         ("line_number", dict_get l "StartLine" (JInt 0));
         ("commit", commit);
         ("author", dict_get l "Author" (JStr ""));
         ("date", dict_get l "Date" (JStr ""));
         ("match", JStr redacted)] in
      findings <-- gitleaks_leaks rest ;;
      inr (finding :: findings)
  end.

(** The test of line 37: ['secrets' in data and 'scan_metadata' in data]. *)
Definition is_deduplicated (data : json) : Result bool :=
  has_secrets <-- py_in "secrets" data ;;
  if has_secrets then py_in "scan_metadata" data else inr false.

(** parsers.py, lines 27-85 *)
Definition parse_gitleaks (data : json) : Result (list dict) :=
  deduplicated <-- is_deduplicated data ;;
  if deduplicated then
    d <-- as_dict data ;;
    meta <-- as_dict (dict_get d "scan_metadata" (JObj [])) ;;
    let repo_name := dict_get meta "repo_name" (dict_get d "repo_name" (JStr "Unknown")) in
    secrets <-- dict_index d "secrets" ;;
    secrets <-- py_iter secrets ;;
    gitleaks_secrets meta repo_name secrets
  else
    raw_findings <--
      (match data with
       | JArr _ => inr data
       | _ => py_get data "findings" (JArr [])
       end) ;;
    leaks <-- py_iter raw_findings ;;
    gitleaks_leaks leaks.

(** The inner loop of lines 98-112, for one result with target [target]. *)
Fixpoint trivy_misconfigs (target : json) (misconfigs : list json) : Result (list dict) :=
  match misconfigs with
  | [] => inr []
  | misconfig :: rest =>
      m <-- as_dict misconfig ;;
      severity <-- py_upper (dict_get m "Severity" (JStr "MEDIUM")) ;;
      start_line <-- py_get (dict_get m "CauseMetadata" (JObj [])) "StartLine" (JInt 0) ;;
      end_line <-- py_get (dict_get m "CauseMetadata" (JObj [])) "EndLine" (JInt 0) ;;
      let finding :=
        [("check_id", dict_get m "ID" (JStr "UNKNOWN"));
         ("check_name", dict_get m "Title" (JStr "Unknown Issue"));
         ("severity", JStr severity);
         ("resource_type", dict_get m "Type" (JStr "unknown"));
         ("resource_name", dict_get m "PrimaryURL" (JStr ""));
         ("file_path", target);
         ("line_range", JArr [start_line; end_line]);
         ("description", dict_get m "Description" (JStr ""));
         ("remediation", dict_get m "Resolution" (JStr ""));
         ("references", dict_get m "References" (JArr []))] in
      findings <-- trivy_misconfigs target rest ;;
      inr (finding :: findings)
  end.

(** The outer loop of lines 94-112. *)
Fixpoint trivy_results (results : list json) : Result (list dict) :=
  match results with
  | [] => inr []
  | result :: rest =>
      r <-- as_dict result ;;
      misconfigs <-- py_iter (dict_get r "Misconfigurations" (JArr [])) ;;
      here <-- trivy_misconfigs (dict_get r "Target" (JStr "")) misconfigs ;;
      findings <-- trivy_results rest ;;
      inr (here ++ findings)
  end.

(** parsers.py, lines 87-114 *)
Definition parse_trivy (data : json) : Result (list dict) :=
  results <-- py_get data "Results" (JArr []) ;;
  results <-- py_iter results ;;
  trivy_results results.

(** ** main.py *)

(** [json.loads] *)
Variable json_loads : string -> Result json.

(** [str(n)] for a length. *)
Definition str_of_nat (n : nat) : string := NilZero.string_of_uint (Nat.to_uint n).

(** main.py, lines 33-46; [user] is what [Depends(get_current_user)] gave. *)
Definition get_cloud_findings (user : dict) (st : Store) : list dict := cloud st.
Definition get_secret_findings (user : dict) (st : Store) : list dict := secrets st.
Definition get_iac_findings (user : dict) (st : Store) : list dict := iac st.

(** main.py, lines 48-58; [content] is what [await file.read()] gave. *)
Definition upload_checkov (content : string) (user : dict) (st : Store)
    : Result dict * Store :=
  match (data <-- json_loads content ;; parse_checkov data) with
  | inl e => (inl e, st)
  | inr parsed =>
      (inr [("message",
             JStr ("Processed " ++ str_of_nat (List.length parsed)
                   ++ " cloud findings")%string)],
       mkStore (cloud st ++ parsed) (secrets st) (iac st))
  end.

(** main.py, lines 60-70 *)
Definition upload_gitleaks (content : string) (user : dict) (st : Store)
    : Result dict * Store :=
  match (data <-- json_loads content ;; parse_gitleaks data) with
  | inl e => (inl e, st)
  | inr parsed =>
      (inr [("message",
             JStr ("Processed " ++ str_of_nat (List.length parsed)
                   ++ " secret findings")%string)],
       mkStore (cloud st) (secrets st ++ parsed) (iac st))
  end.

(** main.py, lines 72-82 *)
Definition upload_trivy (content : string) (user : dict) (st : Store)
    : Result dict * Store :=
  match (data <-- json_loads content ;; parse_trivy data) with
  | inl e => (inl e, st)
  | inr parsed =>
      (inr [("message",
             JStr ("Processed " ++ str_of_nat (List.length parsed)
                   ++ " IaC findings")%string)],
       mkStore (cloud st) (secrets st) (iac st ++ parsed))
  end.

(** [severity_counts], line 96: a dict from the five levels to counts. *)
Definition severity_counts0 : list (string * nat) :=
  [("CRITICAL", 0%nat); ("HIGH", 0%nat); ("MEDIUM", 0%nat); ("LOW", 0%nat);
   ("INFO", 0%nat)].

(** [if severity in severity_counts: severity_counts[severity] += 1] *)
Fixpoint bump (severity : string) (counts : list (string * nat)) : list (string * nat) :=
  match counts with
  | [] => []
  | (k, n) :: rest =>
      if (severity =? k)%string then (k, S n) :: rest
      else (k, n) :: bump severity rest
  end.

(** The inner loop of lines 99-102 over one list of findings. *)
Fixpoint count_severities (findings : list dict) (counts : list (string * nat))
    : Result (list (string * nat)) :=
  match findings with
  | [] => inr counts
  | finding :: rest =>
      severity <-- py_upper (dict_get finding "severity" (JStr "INFO")) ;;
      count_severities rest (bump severity counts)
  end.

(** main.py, lines 94-104: the lists are visited in the order of the keys. *)
Definition calculate_severity_breakdown (st : Store) : Result (list (string * nat)) :=
  counts <-- count_severities (cloud st) severity_counts0 ;;
  counts <-- count_severities (secrets st) counts ;;
  count_severities (iac st) counts.

(** main.py, lines 84-92 *)
Definition get_summary (user : dict) (st : Store) : Result dict :=
  breakdown <-- calculate_severity_breakdown st ;;
  inr [("total_cloud_findings", JInt (Z.of_nat (List.length (cloud st))));
       ("total_secrets", JInt (Z.of_nat (List.length (secrets st))));
       ("total_iac_findings", JInt (Z.of_nat (List.length (iac st))));
       ("severity_breakdown",
        JObj (map (fun kn => (fst kn, JInt (Z.of_nat (snd kn)))) breakdown))].

(** main.py, lines 106-111 *)
Definition clear_all_findings (user : dict) (st : Store) : dict * Store :=
  ([("message", JStr "All findings cleared")], mkStore [] [] []).

(** What an update returns: a dict, or the tuple of a dict and a code. *)
Inductive response : Type :=
| Body (d : dict)
| BodyAndCode (d : dict) (code : Z).

Definition allowed_fields : list string := ["status"; "notes"]%string.

(** [if field in update_data: finding[field] = update_data[field]] *)
Definition set_allowed_field (update_data finding : dict) (field : string) : dict :=
  match assoc field update_data with
  | Some v => dict_set finding field v
  | None => finding
  end.

(** [l[n] = x] for [n] within the list. *)
Fixpoint list_set {A} (n : nat) (x : A) (l : list A) : list A :=
  match l, n with
  | [], _ => []
  | _ :: rest, O => x :: rest
  | y :: rest, S n' => y :: list_set n' x rest
  end.

(** The body the three updates share, lines 120-129, 138-147, 156-165, on
    the list [findings] that the route names.  The default of [nth] is not
    reached: the index is within the list there. *)
Definition update_finding (findings : list dict) (index : Z) (update_data : dict)
    : response * list dict :=
  if (index <? 0) || (Z.of_nat (List.length findings) <=? index) then
    (BodyAndCode [("error", JStr "Finding not found")] 404, findings)
  else
    let finding :=
      fold_left (set_allowed_field update_data) allowed_fields
        (nth (Z.to_nat index) findings []) in
    (Body [("message", JStr "Finding updated"); ("finding", JObj finding)],
     list_set (Z.to_nat index) finding findings).

(** main.py, lines 113-129 *)
Definition update_secret_finding (index : Z) (update_data user : dict) (st : Store)
    : response * Store :=
  let (r, l) := update_finding (secrets st) index update_data in
  (r, mkStore (cloud st) l (iac st)).

(** main.py, lines 131-147 *)
Definition update_cloud_finding (index : Z) (update_data user : dict) (st : Store)
    : response * Store :=
  let (r, l) := update_finding (cloud st) index update_data in
  (r, mkStore l (secrets st) (iac st)).

(** main.py, lines 149-165 *)
Definition update_iac_finding (index : Z) (update_data user : dict) (st : Store)
    : response * Store :=
  let (r, l) := update_finding (iac st) index update_data in
  (r, mkStore (cloud st) (secrets st) l).

(** ** Measures used to state the properties of the parsers and the store *)

Definition severity_levels : list string :=
  ["CRITICAL"; "HIGH"; "MEDIUM"; "LOW"; "INFO"]%string.

(** The number of locations the secrets of a deduplicated report list. *)
Fixpoint total_locations (secrets : list json) : nat :=
  match secrets with
  | [] => 0
  | secret :: rest =>
      match secret with
      | JObj s =>
          match py_iter (dict_get s "locations" (JArr [])) with
          | inr locations => List.length locations
          | inl _ => 0
          end
      | _ => 0
      end + total_locations rest
  end.

(** The findings of a store, in the order the summary visits them. *)
Definition all_findings (st : Store) : list dict := cloud st ++ secrets st ++ iac st.

(** The finding counts for the level [level] in the summary. *)
Definition has_level (level : string) (finding : dict) : bool :=
  match py_upper (dict_get finding "severity" (JStr "INFO")) with
  | inr s => (s =? level)%string
  | inl _ => false
  end.

(** [counts[level]], 0 for a level that is not a key. *)
Fixpoint count_for (level : string) (counts : list (string * nat)) : nat :=
  match counts with
  | [] => 0
  | (k, n) :: rest => if (level =? k)%string then n else count_for level rest
  end.

(** What links a failed check to the finding made of it. *)
Definition checkov_finding_of (check : json) (finding : dict) : Prop :=
  exists c level,
    check = JObj c
    /\ In level severity_levels
    /\ map_checkov_severity (dict_get c "severity" (JStr "MEDIUM")) = inr (JStr level)
    /\ assoc "severity" finding = Some (JStr level)
    /\ assoc "check_id" finding = Some (dict_get c "check_id" (JStr "UNKNOWN"))
    /\ assoc "resource" finding = Some (dict_get c "resource" (JStr "unknown"))
    /\ assoc "remediation" finding = Some (dict_get c "guideline" (JStr "")).


(** What a finding made of the secret [s] of a deduplicated report, whose
    metadata are [meta], holds. *)
Definition deduplicated_finding_of (meta s finding : dict) : Prop :=
  assoc "commit" finding = Some JNull
  /\ assoc "author" finding = Some JNull
  /\ assoc "date" finding = Some (dict_get meta "scan_date" (JStr ""))
  /\ assoc "severity" finding = Some (dict_get s "severity" (JStr "HIGH"))
  /\ assoc "match" finding = Some (dict_get s "secret_display" (JStr "***REDACTED***"))
  /\ (forall r, assoc "rule_id" finding = Some (JStr r) -> (String.length r <= 16)%nat).

(** What a finding made of a misconfiguration of the result [r] of a Trivy
    report holds. *)
Definition trivy_finding_of (r finding : dict) : Prop :=
  assoc "file_path" finding = Some (dict_get r "Target" (JStr ""))
  /\ (exists s, assoc "severity" finding = Some (JStr s) /\ upper s = s)
  /\ (exists a b, assoc "line_range" finding = Some (JArr [a; b])).

(** A key-set document, as the endpoint publishes it: a JSON object with a
    ["keys"] member. *)
Definition is_key_set (ks : json) : Prop :=
  exists d v, ks = JObj d /\ assoc "keys" d = Some v.

(** The test of line 62 at the instant the clock gives next. *)
Definition cache_hit (w : World) : bool :=
  truthy (keys (_signing_keys_cache w))
  && (time_at (ticks w) <? expires_at (_signing_keys_cache w)).

(** The key set holds no key for [key_id]: the loop leaves [signing_key] at
    [None]. *)
Definition kid_absent (jwks key_id : json) : Prop :=
  scan_jwks jwks key_id JNull = inr JNull.

(** The loop stops on [key]. *)
Definition kid_selects (jwks key_id key : json) : Prop :=
  scan_jwks jwks key_id JNull = inr key /\ truthy key = true.

(** What the two [except] clauses make of an exception. *)
Definition surfaced (e : exn) : exn :=
  if is_JWTError e then HTTPException 401 "Invalid or expired token"
  else HTTPException 401 "Authentication failed".

(** After the header was read in [w1], the cache invalidated, and [jwks2]
    fetched at instant [now] and stored. *)
Definition after_refresh (token : string) (jwks2 : json) (now : Z) (w1 : World) : World :=
  mkWorld (mkCache jwks2 (now + CACHE_TTL)) (S (ticks w1)) (S (fetches w1))
          (trace w1 ++ [EvHeader token; EvTime; EvFetch]).

(** ** The monad *)

Lemma bind_inr {A B} (m : M A) (k : A -> M B) w a w' :
  m w = (inr a, w') -> bind m k w = k a w'.
Proof. intros H. unfold bind. rewrite H. reflexivity. Qed.

Lemma bind_inl {A B} (m : M A) (k : A -> M B) w e w' :
  m w = (inl e, w') -> bind m k w = (inl e, w').
Proof. intros H. unfold bind. rewrite H. reflexivity. Qed.

Lemma try_except_inr {A} (m : M A) h w a w' :
  m w = (inr a, w') -> try_except m h w = (inr a, w').
Proof. intros H. unfold try_except. rewrite H. reflexivity. Qed.

Lemma try_except_inl {A} (m : M A) h w e w' :
  m w = (inl e, w') -> try_except m h w = h e w'.
Proof. intros H. unfold try_except. rewrite H. reflexivity. Qed.

(** ** [get_signing_keys] *)

(** The three ways [get_signing_keys] ends. *)
Lemma get_signing_keys_eq w :
  get_signing_keys w =
  if cache_hit w then (inr (keys (_signing_keys_cache w)), after_cache_hit w)
  else
    match endpoint (fetches w) with
    | inr ks => (inr ks, after_fetch ks (time_at (ticks w)) w)
    | inl e =>
        (inl (if is_RequestException e then
                HTTPException 503 "Service unavailable - unable to fetch signing keys"
              else e),
         after_failed_fetch w)
    end.
Proof.
  unfold get_signing_keys, cache_hit, bind, time_time, read_cache. simpl.
  destruct (truthy _ && _); [reflexivity|].
  unfold try_except, bind, requests_get_json, set_keys, set_expires_at, ret. simpl.
  destruct (endpoint (fetches w)) as [e|ks]; simpl.
  - unfold after_failed_fetch, raise.
    destruct (is_RequestException e); rewrite <- app_assoc; reflexivity.
  - unfold after_fetch. rewrite <- app_assoc. reflexivity.
Qed.

Lemma cache_hit_invalidated w : cache_hit (invalidated w) = false.
Proof. reflexivity. Qed.

(** A request for the key set reads the clock first and sends at most one
    request. *)
Lemma get_signing_keys_world w :
  let w1 := snd (get_signing_keys w) in
  (exists rest, trace w1 = trace w ++ EvTime :: rest /\ Forall (fun ev => is_decode ev = false) rest)
  /\ (fetches w1 = fetches w \/ fetches w1 = S (fetches w)).
Proof.
  rewrite get_signing_keys_eq.
  destruct (cache_hit w); [|destruct (endpoint (fetches w))]; simpl; split;
    try (now left); try (now right).
  - exists []. split; [reflexivity|constructor].
  - exists [EvFetch]. split; [reflexivity|repeat constructor].
  - exists [EvFetch]. split; [reflexivity|repeat constructor].
Qed.

Lemma is_key_set_truthy ks : is_key_set ks -> truthy ks = true.
Proof.
  intros (d & v & -> & H). destruct d as [|kv d]; [discriminate H|reflexivity].
Qed.

(** C5. A key set [ks] stored with expiry [T + CACHE_TTL], that is, fetched
    at instant [T]: a call at an instant before [T + CACHE_TTL] returns [ks]
    and sends no request, leaving the cache as it is, so that the same holds
    of the next call; a call at or after [T + CACHE_TTL] sends one request
    and, when it is answered with [ks'], stores [ks'] together with the
    expiry [now + CACHE_TTL] and returns it. *)
Theorem get_signing_keys_freshness w ks T :
  is_key_set ks ->
  _signing_keys_cache w = mkCache ks (T + CACHE_TTL) ->
  (time_at (ticks w) < T + CACHE_TTL ->
   get_signing_keys w = (inr ks, after_cache_hit w)
   /\ fetches (after_cache_hit w) = fetches w
   /\ _signing_keys_cache (after_cache_hit w) = _signing_keys_cache w)
  /\ (T + CACHE_TTL <= time_at (ticks w) ->
      fetches (snd (get_signing_keys w)) = S (fetches w)
      /\ forall ks', endpoint (fetches w) = inr ks' ->
           get_signing_keys w = (inr ks', after_fetch ks' (time_at (ticks w)) w)
           /\ _signing_keys_cache (after_fetch ks' (time_at (ticks w)) w)
              = mkCache ks' (time_at (ticks w) + CACHE_TTL)).
Proof.
  intros Hks Hc. split.
  - intros Hlt. rewrite get_signing_keys_eq. unfold cache_hit.
    rewrite Hc. simpl. rewrite (is_key_set_truthy _ Hks).
    apply Z.ltb_lt in Hlt. rewrite Hlt. simpl. auto.
  - intros Hge. rewrite get_signing_keys_eq. unfold cache_hit.
    rewrite Hc. simpl.
    apply Z.ltb_ge in Hge. rewrite Hge, andb_false_r.
    split.
    + destruct (endpoint (fetches w)); reflexivity.
    + intros ks' Hfetch. rewrite Hfetch. auto.
Qed.

(** A cached value that Python takes for false, [None] or an empty document,
    is not served from the cache: the call sends a request. *)
Lemma get_signing_keys_false_value_refetched w :
  truthy (keys (_signing_keys_cache w)) = false ->
  fetches (snd (get_signing_keys w)) = S (fetches w).
Proof.
  intros H. rewrite get_signing_keys_eq. unfold cache_hit. rewrite H. simpl.
  destruct (endpoint (fetches w)); reflexivity.
Qed.

(** ** [verify_token] *)

(** C7. When the tenant or the client identifier is unset (absent or empty),
    [verify_token] raises the 500 configuration error and leaves the world
    untouched: no clock reading, no request, no call to the decoder. *)
Theorem verify_token_config_error token w :
  truthy_env AZURE_TENANT_ID = false \/ truthy_env AZURE_CLIENT_ID = false ->
  verify_token token w
  = (inl (HTTPException 500 "Server configuration error - Azure AD not configured"), w).
Proof.
  intros H. unfold verify_token, config_missing.
  destruct H as [H|H]; rewrite H; simpl; rewrite ?orb_true_r; reflexivity.
Qed.

(** ** The trace *)

Lemma extends_refl P w : extends P w w.
Proof. exists []. rewrite app_nil_r. split; [reflexivity|constructor]. Qed.

Lemma extends_trans P w1 w2 w3 :
  extends P w1 w2 -> extends P w2 w3 -> extends P w1 w3.
Proof.
  intros (e1 & H1 & F1) (e2 & H2 & F2). exists (e1 ++ e2). split.
  - rewrite H2, H1, app_assoc. reflexivity.
  - apply Forall_app. split; assumption.
Qed.

Lemma extends_log (P : event -> Prop) ev w : P ev -> extends P w (log ev w).
Proof. intros H. exists [ev]. split; [reflexivity|repeat constructor; exact H]. Qed.

Lemma extends_invalidated P w : extends P w (invalidated w).
Proof. exists []. simpl. rewrite app_nil_r. split; [reflexivity|constructor]. Qed.

Lemma get_signing_keys_extends (P : event -> Prop) w :
  P EvTime -> P EvFetch -> extends P w (snd (get_signing_keys w)).
Proof.
  intros Ht Hf. rewrite get_signing_keys_eq.
  destruct (cache_hit w); [|destruct (endpoint (fetches w))]; simpl.
  - exists [EvTime]. split; [reflexivity|repeat constructor; assumption].
  - exists [EvTime; EvFetch]. split; [reflexivity|repeat constructor; assumption].
  - exists [EvTime; EvFetch]. split; [reflexivity|repeat constructor; assumption].
Qed.

(** ** The selection of the key, lines 114-152 *)

Lemma select_signing_key_eq token w :
  select_signing_key token w =
  match get_signing_keys w with
  | (inl e, w1) => (inl e, w1)
  | (inr jwks, w1) =>
      let wh := log (EvHeader token) w1 in
      match jose_get_unverified_header token with
      | inl e => (inl e, wh)
      | inr unverified_header =>
          let key_id := dict_get unverified_header "kid" JNull in
          if truthy key_id then
            match scan_jwks jwks key_id JNull with
            | inl e => (inl e, wh)
            | inr signing_key =>
                if truthy signing_key then (inr signing_key, wh)
                else
                  match get_signing_keys (invalidated wh) with
                  | (inl e, w2) => (inl e, w2)
                  | (inr jwks2, w2) =>
                      match scan_jwks jwks2 key_id signing_key with
                      | inl e => (inl e, w2)
                      | inr signing_key2 =>
                          if truthy signing_key2 then (inr signing_key2, w2)
                          else (inl (HTTPException 401 "Invalid token signature"), w2)
                      end
                  end
            end
          else (inl (HTTPException 401 "Invalid token format"), wh)
      end
  end.
Proof.
  unfold select_signing_key. unfold bind at 1.
  destruct (get_signing_keys w) as [[e|jwks] w1]; [reflexivity|].
  unfold bind at 1. unfold jwt_get_unverified_header at 1. cbv zeta.
  destruct (jose_get_unverified_header token) as [e|hdr]; [reflexivity|].
  destruct (truthy (dict_get hdr "kid" JNull)); [|reflexivity]. simpl negb. cbv iota.
  unfold bind at 1. unfold lift at 1.
  destruct (scan_jwks jwks _ JNull) as [e|sk]; [reflexivity|].
  destruct (truthy sk); [reflexivity|]. simpl negb. cbv iota.
  unfold bind at 1. unfold set_keys at 1.
  unfold bind at 1. unfold set_expires_at at 1. simpl.
  fold (invalidated (log (EvHeader token) w1)).
  unfold bind at 1.
  destruct (get_signing_keys _) as [[e|jwks2] w2]; [reflexivity|].
  unfold bind, lift.
  destruct (scan_jwks jwks2 _ sk) as [e|sk2]; [reflexivity|].
  destruct (truthy sk2); reflexivity.
Qed.

(** The selection calls neither decoder entry that takes a key. *)
Lemma select_signing_key_extends (P : event -> Prop) token w :
  P EvTime -> P EvFetch -> P (EvHeader token) ->
  extends P w (snd (select_signing_key token w)).
Proof.
  intros Ht Hf Hh. rewrite select_signing_key_eq.
  pose proof (get_signing_keys_extends P w Ht Hf) as H1.
  destruct (get_signing_keys w) as [[e|jwks] w1]; simpl in *; [exact H1|].
  assert (Hwh : extends P w (log (EvHeader token) w1)).
  { eapply extends_trans; [exact H1|apply extends_log; exact Hh]. }
  destruct (jose_get_unverified_header token) as [e|hdr]; simpl; [exact Hwh|].
  destruct (truthy _); simpl; [|exact Hwh].
  destruct (scan_jwks jwks _ JNull) as [e|sk]; simpl; [exact Hwh|].
  destruct (truthy sk); simpl; [exact Hwh|].
  pose proof (get_signing_keys_extends P (invalidated (log (EvHeader token) w1)) Ht Hf) as H2.
  assert (Hw2 : extends P w (snd (get_signing_keys (invalidated (log (EvHeader token) w1))))).
  { eapply extends_trans; [exact Hwh|].
    eapply extends_trans; [apply extends_invalidated|exact H2]. }
  destruct (get_signing_keys _) as [[e|jwks2] w2]; simpl in *; [exact Hw2|].
  destruct (scan_jwks jwks2 _ sk) as [e|sk2]; simpl; [exact Hw2|].
  destruct (truthy sk2); exact Hw2.
Qed.


(** ** The validation with the selected key, lines 154-192 *)

Lemma py_eq_JStr v s : py_eq v (JStr s) = true <-> v = JStr s.
Proof.
  destruct v; simpl; split; intros H; try discriminate.
  - apply String.eqb_eq in H. congruence.
  - injection H as ->. apply String.eqb_refl.
Qed.

Lemma py_eq_JStr_false v s : v <> JStr s -> py_eq v (JStr s) = false.
Proof.
  intros H. destruct (py_eq v (JStr s)) eqn:E; [|reflexivity].
  apply py_eq_JStr in E. contradiction.
Qed.

Lemma validate_with_key_eq token key w :
  validate_with_key token key w =
  let w1 := log (EvDecode token key ["RS256"%string] None None verify_options_off) w in
  match jose_decode token key ["RS256"%string] None None verify_options_off with
  | inl e => (inl e, w1)
  | inr unverified_payload =>
      let token_issuer := dict_get unverified_payload "iss" JNull in
      let verified expected_issuer :=
        (jose_decode token key ["RS256"%string] (Some AUDIENCE)
           (Some expected_issuer) verify_options_on,
         log (EvDecode token key ["RS256"%string] (Some AUDIENCE)
                (Some expected_issuer) verify_options_on) w1) in
      if py_eq token_issuer (JStr ISSUER_V1) then verified ISSUER_V1
      else if py_eq token_issuer (JStr ISSUER_V2) then verified ISSUER_V2
      else (inl (HTTPException 401 "Invalid token issuer"), w1)
  end.
Proof.
  unfold validate_with_key. unfold bind at 1. unfold jwt_decode at 1. cbv zeta.
  destruct (jose_decode token key _ None None _) as [e|up]; [reflexivity|].
  unfold bind at 1.
  destruct (py_eq _ (JStr ISSUER_V1)).
  - unfold ret at 1. unfold bind, jwt_decode, ret.
    destruct (jose_decode _ _ _ _ _ _); reflexivity.
  - destruct (py_eq _ (JStr ISSUER_V2)).
    + unfold ret at 1. unfold bind, jwt_decode, ret.
      destruct (jose_decode _ _ _ _ _ _); reflexivity.
    + reflexivity.
Qed.

(** Every call of the decoder made by the validation allows RS256 only. *)
Lemma validate_with_key_extends (P : event -> Prop) token key w :
  (forall aud iss opts, P (EvDecode token key ["RS256"%string] aud iss opts)) ->
  extends P w (snd (validate_with_key token key w)).
Proof.
  intros Hd. rewrite validate_with_key_eq. cbv zeta.
  assert (H1 : extends P w
            (log (EvDecode token key ["RS256"%string] None None verify_options_off) w))
    by (apply extends_log, Hd).
  destruct (jose_decode token key _ None None _) as [e|up]; simpl; [exact H1|].
  destruct (py_eq _ (JStr ISSUER_V1)); simpl.
  - eapply extends_trans; [exact H1|apply extends_log, Hd].
  - destruct (py_eq _ (JStr ISSUER_V2)); simpl.
    + eapply extends_trans; [exact H1|apply extends_log, Hd].
    + exact H1.
Qed.

(** ** The whole of [verify_token] *)

Lemma verify_token_body_eq token w :
  verify_token_body token w =
  match select_signing_key token w with
  | (inl e, w1) => (inl e, w1)
  | (inr signing_key, w1) => validate_with_key token signing_key w1
  end.
Proof. reflexivity. Qed.

Lemma verify_token_eq token w :
  config_missing = false ->
  verify_token token w =
  match verify_token_body token w with
  | (inr payload, w') => (inr payload, w')
  | (inl e, w') => (inl (surfaced e), w')
  end.
Proof.
  intros Hc. unfold verify_token. rewrite Hc. unfold try_except.
  destruct (verify_token_body token w) as [[e|p] w']; [|reflexivity].
  unfold verify_token_handler, surfaced. destruct (is_JWTError e); reflexivity.
Qed.

Lemma verify_token_extends (P : event -> Prop) token w :
  P EvTime -> P EvFetch -> P (EvHeader token) ->
  (forall key aud iss opts, P (EvDecode token key ["RS256"%string] aud iss opts)) ->
  extends P w (snd (verify_token token w)).
Proof.
  intros Ht Hf Hh Hd. destruct config_missing eqn:Hc.
  - unfold verify_token. rewrite Hc. apply extends_refl.
  - rewrite (verify_token_eq _ _ Hc), verify_token_body_eq.
    pose proof (select_signing_key_extends P token w Ht Hf Hh) as H1.
    destruct (select_signing_key token w) as [[e|key] w1]; simpl in *; [exact H1|].
    pose proof (validate_with_key_extends P token key w1 (Hd key)) as H2.
    destruct (validate_with_key token key w1) as [[e|p] w2]; simpl in *;
      eapply extends_trans; eassumption.
Qed.

(** ** The lookup loop *)

(** X9. The loop leaves [signing_key] at [None] exactly when every item of the
    key set is a dict whose ["kid"] differs from the token's. *)
Lemma find_key_absent ks key_id :
  find_key ks key_id JNull = inr JNull <->
  Forall (fun key => exists d, key = JObj d
                               /\ py_eq (dict_get d "kid" JNull) key_id = false) ks.
Proof.
  induction ks as [|k rest IH]; simpl.
  - split; [constructor|reflexivity].
  - destruct k as [| | | | |d]; simpl;
      try (split; [discriminate|intros H; inversion H as [|? ? (d & Hd & _)]; discriminate]).
    destruct (py_eq (dict_get d "kid" JNull) key_id) eqn:E.
    + split; [discriminate|].
      intros H. inversion H as [|? ? (d' & Hd & Hne)]; subst.
      injection Hd as <-. congruence.
    + rewrite IH. split.
      * intros H. constructor; [exists d; auto|exact H].
      * intros H. inversion H. assumption.
Qed.

(** A key the loop stops on is an item of the key set, carries the token's
    [kid], and is not an empty value when that [kid] is not. *)
Lemma find_key_found ks key_id key :
  truthy key_id = true ->
  find_key ks key_id JNull = inr key -> key <> JNull ->
  In key ks
  /\ (exists d, key = JObj d /\ py_eq (dict_get d "kid" JNull) key_id = true)
  /\ truthy key = true.
Proof.
  intros Hk. induction ks as [|k rest IH]; simpl; intros H Hn.
  - congruence.
  - destruct k as [| | | | |d]; simpl in H; try discriminate.
    destruct (py_eq (dict_get d "kid" JNull) key_id) eqn:E.
    + injection H as <-. split; [now left|]. split; [exists d; auto|].
      destruct d as [|kv d']; [|reflexivity].
      unfold dict_get in E. simpl in E. destruct key_id; simpl in *; discriminate.
    + destruct (IH H Hn) as (Hin & Hg & Ht). auto.
Qed.

(** ** The ways through [select_signing_key] *)

Lemma select_keys_unavailable token w e w1 :
  get_signing_keys w = (inl e, w1) ->
  select_signing_key token w = (inl e, w1).
Proof. intros H. rewrite select_signing_key_eq, H. reflexivity. Qed.

Lemma select_header_error token w jwks w1 e :
  get_signing_keys w = (inr jwks, w1) ->
  jose_get_unverified_header token = inl e ->
  select_signing_key token w = (inl e, log (EvHeader token) w1).
Proof. intros H Hh. rewrite select_signing_key_eq, H, Hh. reflexivity. Qed.

Lemma select_missing_kid token w jwks w1 hdr :
  get_signing_keys w = (inr jwks, w1) ->
  jose_get_unverified_header token = inr hdr ->
  truthy (dict_get hdr "kid" JNull) = false ->
  select_signing_key token w
  = (inl (HTTPException 401 "Invalid token format"), log (EvHeader token) w1).
Proof.
  intros H Hh Hk. rewrite select_signing_key_eq, H, Hh. cbv zeta.
  rewrite Hk. reflexivity.
Qed.

Lemma select_cached_key token w jwks w1 hdr key :
  get_signing_keys w = (inr jwks, w1) ->
  jose_get_unverified_header token = inr hdr ->
  truthy (dict_get hdr "kid" JNull) = true ->
  kid_selects jwks (dict_get hdr "kid" JNull) key ->
  select_signing_key token w = (inr key, log (EvHeader token) w1).
Proof.
  intros H Hh Hk [Hs Ht]. rewrite select_signing_key_eq, H, Hh. cbv zeta.
  rewrite Hk, Hs, Ht. reflexivity.
Qed.

Lemma get_signing_keys_refresh token w1 jwks2 :
  endpoint (fetches w1) = inr jwks2 ->
  get_signing_keys (invalidated (log (EvHeader token) w1))
  = (inr jwks2, after_refresh token jwks2 (time_at (ticks w1)) w1).
Proof.
  intros Hf. rewrite get_signing_keys_eq, cache_hit_invalidated. simpl.
  rewrite Hf. unfold after_fetch, after_refresh. simpl.
  rewrite <- app_assoc. reflexivity.
Qed.

Lemma select_unknown_kid token w jwks1 w1 hdr jwks2 :
  get_signing_keys w = (inr jwks1, w1) ->
  jose_get_unverified_header token = inr hdr ->
  truthy (dict_get hdr "kid" JNull) = true ->
  kid_absent jwks1 (dict_get hdr "kid" JNull) ->
  endpoint (fetches w1) = inr jwks2 ->
  kid_absent jwks2 (dict_get hdr "kid" JNull) ->
  select_signing_key token w
  = (inl (HTTPException 401 "Invalid token signature"),
     after_refresh token jwks2 (time_at (ticks w1)) w1).
Proof.
  intros H Hh Hk Ha1 Hf Ha2. rewrite select_signing_key_eq, H, Hh. cbv zeta.
  unfold kid_absent in Ha1, Ha2.
  rewrite Hk, Ha1. simpl truthy. cbv iota.
  rewrite (get_signing_keys_refresh _ _ _ Hf), Ha2. reflexivity.
Qed.

Lemma select_refreshed_key token w jwks1 w1 hdr jwks2 key :
  get_signing_keys w = (inr jwks1, w1) ->
  jose_get_unverified_header token = inr hdr ->
  truthy (dict_get hdr "kid" JNull) = true ->
  kid_absent jwks1 (dict_get hdr "kid" JNull) ->
  endpoint (fetches w1) = inr jwks2 ->
  kid_selects jwks2 (dict_get hdr "kid" JNull) key ->
  select_signing_key token w
  = (inr key, after_refresh token jwks2 (time_at (ticks w1)) w1).
Proof.
  intros H Hh Hk Ha1 Hf [Hs Ht]. rewrite select_signing_key_eq, H, Hh. cbv zeta.
  unfold kid_absent in Ha1.
  rewrite Hk, Ha1. simpl truthy. cbv iota.
  rewrite (get_signing_keys_refresh _ _ _ Hf), Hs, Ht. reflexivity.
Qed.

(** ** The ways through [validate_with_key] *)

Lemma validate_unknown_issuer token key w up :
  jose_decode token key ["RS256"%string] None None verify_options_off = inr up ->
  dict_get up "iss" JNull <> JStr ISSUER_V1 ->
  dict_get up "iss" JNull <> JStr ISSUER_V2 ->
  validate_with_key token key w
  = (inl (HTTPException 401 "Invalid token issuer"),
     log (EvDecode token key ["RS256"%string] None None verify_options_off) w).
Proof.
  intros Hd H1 H2. rewrite validate_with_key_eq, Hd. cbv zeta.
  rewrite (py_eq_JStr_false _ _ H1), (py_eq_JStr_false _ _ H2). reflexivity.
Qed.

Lemma validate_accepted_issuer token key w up expected_issuer :
  jose_decode token key ["RS256"%string] None None verify_options_off = inr up ->
  expected_issuer = ISSUER_V1 \/ expected_issuer = ISSUER_V2 ->
  dict_get up "iss" JNull = JStr expected_issuer ->
  validate_with_key token key w
  = (jose_decode token key ["RS256"%string] (Some AUDIENCE) (Some expected_issuer)
       verify_options_on,
     log (EvDecode token key ["RS256"%string] (Some AUDIENCE) (Some expected_issuer)
            verify_options_on)
       (log (EvDecode token key ["RS256"%string] None None verify_options_off) w)).
Proof.
  intros Hd Hacc Hiss. rewrite validate_with_key_eq, Hd. cbv zeta. rewrite Hiss.
  destruct (py_eq (JStr expected_issuer) (JStr ISSUER_V1)) eqn:E1.
  - apply py_eq_JStr in E1. injection E1 as ->. reflexivity.
  - destruct Hacc as [->| ->].
    + simpl in E1. rewrite String.eqb_refl in E1. discriminate.
    + simpl. rewrite String.eqb_refl. reflexivity.
Qed.

Lemma body_of_select_error token w e w1 :
  select_signing_key token w = (inl e, w1) ->
  verify_token_body token w = (inl e, w1).
Proof. intros H. rewrite verify_token_body_eq, H. reflexivity. Qed.

Lemma body_of_select token w key w1 :
  select_signing_key token w = (inr key, w1) ->
  verify_token_body token w = validate_with_key token key w1.
Proof. intros H. rewrite verify_token_body_eq, H. reflexivity. Qed.

Lemma verify_of_body_error token w e w1 :
  config_missing = false ->
  verify_token_body token w = (inl e, w1) ->
  verify_token token w = (inl (surfaced e), w1).
Proof. intros Hc H. rewrite (verify_token_eq _ _ Hc), H. reflexivity. Qed.

Lemma verify_of_body_payload token w p w1 :
  config_missing = false ->
  verify_token_body token w = (inr p, w1) ->
  verify_token token w = (inr p, w1).
Proof. intros Hc H. rewrite (verify_token_eq _ _ Hc), H. reflexivity. Qed.

(** ** The claims about [verify_token] *)

(** C1 (the code departs from it). When the configuration is set, the cache
    cannot answer and the request to the key-publication endpoint raises a
    [RequestException], [get_signing_keys] raises the 503 exception, and
    [verify_token] catches it in its last [except] clause: its caller gets
    401 "Authentication failed", not 503. *)
Theorem verify_token_fetch_failure token w m :
  config_missing = false ->
  cache_hit w = false ->
  endpoint (fetches w) = inl (RequestException m) ->
  get_signing_keys w
  = (inl (HTTPException 503 "Service unavailable - unable to fetch signing keys"),
     after_failed_fetch w)
  /\ verify_token token w
     = (inl (HTTPException 401 "Authentication failed"), after_failed_fetch w).
Proof.
  intros Hc Hhit Hf.
  assert (Hg : get_signing_keys w
               = (inl (HTTPException 503
                         "Service unavailable - unable to fetch signing keys"),
                  after_failed_fetch w)).
  { rewrite get_signing_keys_eq, Hhit, Hf. reflexivity. }
  split; [exact Hg|].
  apply (verify_of_body_error _ _ _ _ Hc (body_of_select_error _ _ _ _
           (select_keys_unavailable token _ _ _ Hg))).
Qed.

(** C2 (the code departs from it in what the rejection says). Once a
    signing key is selected: when the issuer read from the unverified payload
    is one of the two accepted issuer strings and the verified decode
    (signature, expiry, audience, that issuer) succeeds, [verify_token]
    returns its payload; when the issuer is anything else, the [try] block
    raises 401 "Invalid token issuer" and no call of the decoder that checks
    a signature was made, but what [verify_token] raises is the
    401 "Authentication failed" of its last [except] clause: the caller
    cannot tell this rejection from the others. *)
Theorem verify_token_issuer token w key w1 up :
  config_missing = false ->
  select_signing_key token w = (inr key, w1) ->
  jose_decode token key ["RS256"%string] None None verify_options_off = inr up ->
  (forall expected_issuer payload,
      expected_issuer = ISSUER_V1 \/ expected_issuer = ISSUER_V2 ->
      dict_get up "iss" JNull = JStr expected_issuer ->
      jose_decode token key ["RS256"%string] (Some AUDIENCE) (Some expected_issuer)
        verify_options_on = inr payload ->
      verify_token token w
      = (inr payload,
         log (EvDecode token key ["RS256"%string] (Some AUDIENCE)
                (Some expected_issuer) verify_options_on)
           (log (EvDecode token key ["RS256"%string] None None verify_options_off) w1)))
  /\ (dict_get up "iss" JNull <> JStr ISSUER_V1 ->
      dict_get up "iss" JNull <> JStr ISSUER_V2 ->
      let w' := log (EvDecode token key ["RS256"%string] None None verify_options_off) w1 in
      verify_token_body token w = (inl (HTTPException 401 "Invalid token issuer"), w')
      /\ verify_token token w = (inl (HTTPException 401 "Authentication failed"), w')
      /\ exists evs, trace w' = trace w ++ evs
                     /\ Forall (fun ev => verifies_signature ev = false) evs).
Proof.
  intros Hc Hsel Hd. split.
  - intros expected_issuer payload Hacc Hiss Hv.
    apply (verify_of_body_payload _ _ _ _ Hc).
    rewrite (body_of_select _ _ _ _ Hsel).
    rewrite (validate_accepted_issuer _ _ _ _ _ Hd Hacc Hiss), Hv. reflexivity.
  - intros H1 H2 w'.
    assert (Hb : verify_token_body token w
                 = (inl (HTTPException 401 "Invalid token issuer"), w')).
    { rewrite (body_of_select _ _ _ _ Hsel).
      apply (validate_unknown_issuer _ _ _ _ Hd H1 H2). }
    split; [exact Hb|]. split; [apply (verify_of_body_error _ _ _ _ Hc Hb)|].
    pose proof (select_signing_key_extends
                  (fun ev => verifies_signature ev = false) token w
                  eq_refl eq_refl eq_refl) as He.
    rewrite Hsel in He. simpl in He.
    eapply extends_trans; [exact He|]. apply extends_log. reflexivity.
Qed.

(** C3 (the code departs from it in what the rejection says). The key set
    obtained first holds no key for the token's [kid], the refetched one
    neither: after the header is read, the cache is invalidated, exactly one
    request is sent and the decoder is not reached; the [try] block raises
    401 "Invalid token signature", but what [verify_token] raises is the
    401 "Authentication failed" of its last [except] clause. *)
Theorem verify_token_unknown_kid token w jwks1 w1 hdr jwks2 :
  config_missing = false ->
  get_signing_keys w = (inr jwks1, w1) ->
  jose_get_unverified_header token = inr hdr ->
  truthy (dict_get hdr "kid" JNull) = true ->
  kid_absent jwks1 (dict_get hdr "kid" JNull) ->
  endpoint (fetches w1) = inr jwks2 ->
  kid_absent jwks2 (dict_get hdr "kid" JNull) ->
  let w' := after_refresh token jwks2 (time_at (ticks w1)) w1 in
  verify_token_body token w = (inl (HTTPException 401 "Invalid token signature"), w')
  /\ verify_token token w = (inl (HTTPException 401 "Authentication failed"), w')
  /\ fetches w' = S (fetches w1)
  /\ trace w' = trace w1 ++ [EvHeader token; EvTime; EvFetch].
Proof.
  intros Hc Hg Hh Hk Ha1 Hf Ha2 w'.
  assert (Hb : verify_token_body token w
               = (inl (HTTPException 401 "Invalid token signature"), w')).
  { apply body_of_select_error.
    apply (select_unknown_kid _ _ _ _ _ _ Hg Hh Hk Ha1 Hf Ha2). }
  split; [exact Hb|]. split; [apply (verify_of_body_error _ _ _ _ Hc Hb)|].
  split; reflexivity.
Qed.

(** C4. The key set obtained first holds no key for the token's [kid] and
    the refetched one does: exactly one request is sent after the
    invalidation, the validation runs with the key found there, and
    [verify_token] returns the payload of the verified decode when the issuer
    is an accepted one and that decode succeeds. *)
Theorem verify_token_after_rotation token w jwks1 w1 hdr jwks2 key up
    expected_issuer payload :
  config_missing = false ->
  get_signing_keys w = (inr jwks1, w1) ->
  jose_get_unverified_header token = inr hdr ->
  truthy (dict_get hdr "kid" JNull) = true ->
  kid_absent jwks1 (dict_get hdr "kid" JNull) ->
  endpoint (fetches w1) = inr jwks2 ->
  kid_selects jwks2 (dict_get hdr "kid" JNull) key ->
  jose_decode token key ["RS256"%string] None None verify_options_off = inr up ->
  expected_issuer = ISSUER_V1 \/ expected_issuer = ISSUER_V2 ->
  dict_get up "iss" JNull = JStr expected_issuer ->
  jose_decode token key ["RS256"%string] (Some AUDIENCE) (Some expected_issuer)
    verify_options_on = inr payload ->
  let w2 := after_refresh token jwks2 (time_at (ticks w1)) w1 in
  select_signing_key token w = (inr key, w2)
  /\ fetches w2 = S (fetches w1)
  /\ verify_token token w
     = (inr payload,
        log (EvDecode token key ["RS256"%string] (Some AUDIENCE)
               (Some expected_issuer) verify_options_on)
          (log (EvDecode token key ["RS256"%string] None None verify_options_off) w2))
  /\ fetches (snd (verify_token token w)) = S (fetches w1).
Proof.
  intros Hc Hg Hh Hk Ha1 Hf Hs Hd Hacc Hiss Hv w2.
  pose proof (select_refreshed_key _ _ _ _ _ _ _ Hg Hh Hk Ha1 Hf Hs) as Hsel.
  fold w2 in Hsel.
  assert (Hvt : verify_token token w
     = (inr payload,
        log (EvDecode token key ["RS256"%string] (Some AUDIENCE)
               (Some expected_issuer) verify_options_on)
          (log (EvDecode token key ["RS256"%string] None None verify_options_off) w2))).
  { apply (verify_of_body_payload _ _ _ _ Hc).
    rewrite (body_of_select _ _ _ _ Hsel).
    rewrite (validate_accepted_issuer _ _ _ _ _ Hd Hacc Hiss), Hv. reflexivity. }
  split; [exact Hsel|]. split; [reflexivity|]. split; [exact Hvt|].
  rewrite Hvt. reflexivity.
Qed.

(** C6. What [verify_token] returns is the payload the verified decode
    (signature and expiry on, audience and the chosen accepted issuer given)
    returned for the selected key, and that decode is the last call made;
    otherwise it raises one of three fixed exceptions, which carry no claim
    of the token. *)
Theorem verify_token_returns_verified_payload token w :
  match verify_token token w with
  | (inr payload, w') =>
      exists key expected_issuer w1,
        (expected_issuer = ISSUER_V1 \/ expected_issuer = ISSUER_V2)
        /\ jose_decode token key ["RS256"%string] (Some AUDIENCE)
             (Some expected_issuer) verify_options_on = inr payload
        /\ w' = log (EvDecode token key ["RS256"%string] (Some AUDIENCE)
                       (Some expected_issuer) verify_options_on) w1
  | (inl e, _) =>
      e = HTTPException 500 "Server configuration error - Azure AD not configured"
      \/ e = HTTPException 401 "Invalid or expired token"
      \/ e = HTTPException 401 "Authentication failed"
  end.
Proof.
  destruct config_missing eqn:Hc.
  - unfold verify_token. rewrite Hc. simpl. now left.
  - rewrite (verify_token_eq _ _ Hc), verify_token_body_eq.
    assert (Hs : forall e, surfaced e
        = HTTPException 500 "Server configuration error - Azure AD not configured"
        \/ surfaced e = HTTPException 401 "Invalid or expired token"
        \/ surfaced e = HTTPException 401 "Authentication failed").
    { intros e. unfold surfaced. destruct (is_JWTError e); auto. }
    destruct (select_signing_key token w) as [[e|key] w1]; [apply Hs|].
    rewrite validate_with_key_eq. cbv zeta.
    destruct (jose_decode token key _ None None _) as [e|up]; [apply Hs|].
    destruct (py_eq _ (JStr ISSUER_V1)).
    + destruct (jose_decode token key _ _ (Some ISSUER_V1) _) as [e|p] eqn:Hv;
        [apply Hs|].
      exists key, ISSUER_V1. eexists. split; [now left|]. split; [exact Hv|reflexivity].
    + destruct (py_eq _ (JStr ISSUER_V2)); [|apply Hs].
      destruct (jose_decode token key _ _ (Some ISSUER_V2) _) as [e|p] eqn:Hv;
        [apply Hs|].
      exists key, ISSUER_V2. eexists. split; [now right|]. split; [exact Hv|reflexivity].
Qed.

(** C8, as amended. With the configuration set, the key set is requested
    from the cache first (the clock reading opens the trace of the attempt)
    and the header is read after it.  When that request raises, the header is
    never read.  When it returns, a header that cannot be parsed gives
    401 "Invalid or expired token", and a header without a usable [kid] makes
    the [try] block raise 401 "Invalid token format", surfaced as a 401
    rejection; in both cases the world is the one the key-set request left,
    plus the reading of the header: no invalidation, no refresh. *)
Theorem verify_token_requests_keys_before_header token w r w1 :
  config_missing = false ->
  get_signing_keys w = (r, w1) ->
  (exists rest, trace w1 = trace w ++ EvTime :: rest)
  /\ match r with
     | inl e => verify_token_body token w = (inl e, w1)
     | inr jwks =>
         (forall m, jose_get_unverified_header token = inl (JWTError m) ->
            verify_token token w
            = (inl (HTTPException 401 "Invalid or expired token"),
               log (EvHeader token) w1))
         /\ (forall hdr, jose_get_unverified_header token = inr hdr ->
               truthy (dict_get hdr "kid" JNull) = false ->
               verify_token_body token w
               = (inl (HTTPException 401 "Invalid token format"),
                  log (EvHeader token) w1)
               /\ verify_token token w
                  = (inl (HTTPException 401 "Authentication failed"),
                     log (EvHeader token) w1))
     end.
Proof.
  intros Hc Hg. split.
  - destruct (get_signing_keys_world w) as [(rest & Ht & _) _].
    rewrite Hg in Ht. exists rest. exact Ht.
  - destruct r as [e|jwks].
    + apply body_of_select_error, select_keys_unavailable, Hg.
    + split.
      * intros m Hh.
        apply (verify_of_body_error _ _ _ _ Hc (body_of_select_error _ _ _ _
                 (select_header_error token _ _ _ _ Hg Hh))).
      * intros hdr Hh Hk.
        pose proof (body_of_select_error _ _ _ _
                      (select_missing_kid token _ _ _ _ Hg Hh Hk)) as Hb.
        split; [exact Hb|apply (verify_of_body_error _ _ _ _ Hc Hb)].
Qed.

(** C9, as amended. Every call of the decoder made by [verify_token] is
    given the fixed list of allowed algorithms ["RS256"], whatever the
    token's header says and whatever the selected key declares. *)
Theorem verify_token_fixed_algorithms token w :
  exists evs,
    trace (snd (verify_token token w)) = trace w ++ evs
    /\ Forall (fun ev => forall algorithms,
                 algorithms_of ev = Some algorithms -> algorithms = ["RS256"%string])
         evs.
Proof.
  apply verify_token_extends; simpl; try discriminate.
  intros _ _ _ _ algorithms H. injection H as <-. reflexivity.
Qed.

(** C10. The configuration check is outside the [try] block and raises the
    500 exception with its own detail.  With the configuration set, every
    exception the [try] block raises that is not a [JWTError] reaches the
    caller as 401 "Authentication failed", a [JWTError] as
    401 "Invalid or expired token".  This covers the 503 raised when the
    fetch fails, and the 401s "Invalid token format" (no [kid]),
    "Invalid token signature" (no key after the refresh) and
    "Invalid token issuer" (issuer not accepted), each of which the [try]
    block does raise. *)
Theorem verify_token_generic_handler token w :
  (config_missing = true ->
   verify_token token w
   = (inl (HTTPException 500 "Server configuration error - Azure AD not configured"), w))
  /\ (config_missing = false ->
      (forall e w1, verify_token_body token w = (inl e, w1) ->
         verify_token token w
         = (inl (if is_JWTError e then HTTPException 401 "Invalid or expired token"
                 else HTTPException 401 "Authentication failed"), w1))
      /\ (forall status detail w1,
            verify_token_body token w = (inl (HTTPException status detail), w1) ->
            verify_token token w = (inl (HTTPException 401 "Authentication failed"), w1))
      /\ (forall m, cache_hit w = false ->
            endpoint (fetches w) = inl (RequestException m) ->
            verify_token_body token w
            = (inl (HTTPException 503 "Service unavailable - unable to fetch signing keys"),
               after_failed_fetch w))
      /\ (forall jwks w1 hdr, get_signing_keys w = (inr jwks, w1) ->
            jose_get_unverified_header token = inr hdr ->
            truthy (dict_get hdr "kid" JNull) = false ->
            verify_token_body token w
            = (inl (HTTPException 401 "Invalid token format"), log (EvHeader token) w1))
      /\ (forall jwks1 w1 hdr jwks2, get_signing_keys w = (inr jwks1, w1) ->
            jose_get_unverified_header token = inr hdr ->
            truthy (dict_get hdr "kid" JNull) = true ->
            kid_absent jwks1 (dict_get hdr "kid" JNull) ->
            endpoint (fetches w1) = inr jwks2 ->
            kid_absent jwks2 (dict_get hdr "kid" JNull) ->
            verify_token_body token w
            = (inl (HTTPException 401 "Invalid token signature"),
               after_refresh token jwks2 (time_at (ticks w1)) w1))
      /\ (forall key w1 up, select_signing_key token w = (inr key, w1) ->
            jose_decode token key ["RS256"%string] None None verify_options_off = inr up ->
            dict_get up "iss" JNull <> JStr ISSUER_V1 ->
            dict_get up "iss" JNull <> JStr ISSUER_V2 ->
            verify_token_body token w
            = (inl (HTTPException 401 "Invalid token issuer"),
               log (EvDecode token key ["RS256"%string] None None verify_options_off) w1))).
Proof.
  split.
  - intros Hc. unfold verify_token. rewrite Hc. reflexivity.
  - intros Hc. repeat split.
    + intros e w1 Hb. apply (verify_of_body_error _ _ _ _ Hc Hb).
    + intros status detail w1 Hb. apply (verify_of_body_error _ _ _ _ Hc Hb).
    + intros m Hhit Hf. apply body_of_select_error, select_keys_unavailable.
      rewrite get_signing_keys_eq, Hhit, Hf. reflexivity.
    + intros jwks w1 hdr Hg Hh Hk.
      apply body_of_select_error, (select_missing_kid _ _ _ _ _ Hg Hh Hk).
    + intros jwks1 w1 hdr jwks2 Hg Hh Hk Ha1 Hf Ha2.
      apply body_of_select_error, (select_unknown_kid _ _ _ _ _ _ Hg Hh Hk Ha1 Hf Ha2).
    + intros key w1 up Hsel Hd H1 H2.
      rewrite (body_of_select _ _ _ _ Hsel).
      apply (validate_unknown_issuer _ _ _ _ Hd H1 H2).
Qed.

(** ** Further properties of auth.py *)

#[local] Set Default Proof Using "Type".

(** Forget the parts of the environment that a statement does not mention. *)
Ltac forget_unused := repeat match goal with x : _ |- _ => clear x end.

Lemma verify_token_outcomes token w :
  match verify_token token w with
  | (inr payload, w') =>
      exists key expected_issuer w1,
        (expected_issuer = ISSUER_V1 \/ expected_issuer = ISSUER_V2)
        /\ jose_decode token key ["RS256"%string] (Some AUDIENCE)
             (Some expected_issuer) verify_options_on = inr payload
        /\ w' = log (EvDecode token key ["RS256"%string] (Some AUDIENCE)
                       (Some expected_issuer) verify_options_on) w1
  | (inl e, _) =>
      e = HTTPException 500 "Server configuration error - Azure AD not configured"
      \/ e = HTTPException 401 "Invalid or expired token"
      \/ e = HTTPException 401 "Authentication failed"
  end.
Proof.
  destruct config_missing eqn:Hc.
  - unfold verify_token. rewrite Hc. simpl. now left.
  - rewrite (verify_token_eq _ _ Hc), verify_token_body_eq.
    assert (Hs : forall e, surfaced e
        = HTTPException 500 "Server configuration error - Azure AD not configured"
        \/ surfaced e = HTTPException 401 "Invalid or expired token"
        \/ surfaced e = HTTPException 401 "Authentication failed").
    { intros e. unfold surfaced. destruct (is_JWTError e); auto. }
    destruct (select_signing_key token w) as [[e|key] w1]; [apply Hs|].
    rewrite validate_with_key_eq. cbv zeta.
    destruct (jose_decode token key _ None None _) as [e|up]; [apply Hs|].
    destruct (py_eq _ (JStr ISSUER_V1)).
    + destruct (jose_decode token key _ _ (Some ISSUER_V1) _) as [e|p] eqn:Hv;
        [apply Hs|].
      exists key, ISSUER_V1. eexists. split; [now left|]. split; [exact Hv|reflexivity].
    + destruct (py_eq _ (JStr ISSUER_V2)); [|apply Hs].
      destruct (jose_decode token key _ _ (Some ISSUER_V2) _) as [e|p] eqn:Hv;
        [apply Hs|].
      exists key, ISSUER_V2. eexists. split; [now right|]. split; [exact Hv|reflexivity].
Qed.

(** X1. [get_current_user] without credentials raises 401 "Authentication
    required" and touches nothing.  With credentials it returns only a
    payload that the verified decode of their token returned, and otherwise
    raises one of three [HTTPException]s, of status 401 or 500: no 503 and no
    other class of exception leaves it. *)
Theorem get_current_user_outcomes creds w :
  match get_current_user creds w with
  | (inr payload, w') =>
      exists c key expected_issuer w1,
        creds = Some c
        /\ (expected_issuer = ISSUER_V1 \/ expected_issuer = ISSUER_V2)
        /\ jose_decode (credentials c) key ["RS256"%string] (Some AUDIENCE)
             (Some expected_issuer) verify_options_on = inr payload
        /\ w' = log (EvDecode (credentials c) key ["RS256"%string] (Some AUDIENCE)
                       (Some expected_issuer) verify_options_on) w1
  | (inl e, w') =>
      (creds = None /\ e = HTTPException 401 "Authentication required" /\ w' = w)
      \/ (creds <> None
          /\ (e = HTTPException 500 "Server configuration error - Azure AD not configured"
              \/ e = HTTPException 401 "Invalid or expired token"
              \/ e = HTTPException 401 "Authentication failed"))
  end.
Proof.
  destruct creds as [c|]; simpl.
  - pose proof (verify_token_outcomes (credentials c) w) as H.
    unfold bind, ret.
    destruct (verify_token (credentials c) w) as [[e|p] w'].
    + right. split; [discriminate|exact H].
    + destruct H as (key & iss & w1 & H1 & H2 & H3).
      exists c, key, iss, w1. auto.
  - left. auto.
Qed.

(** X2. A request for the key set that raises leaves the cache as it was: the
    cache could not answer, one request was sent, and the exception is the
    503 or the one, not a [RequestException], that the request raised. *)
Theorem get_signing_keys_failure_keeps_cache w e w' :
  get_signing_keys w = (inl e, w') ->
  _signing_keys_cache w' = _signing_keys_cache w
  /\ cache_hit w = false
  /\ fetches w' = S (fetches w)
  /\ (e = HTTPException 503 "Service unavailable - unable to fetch signing keys"
      \/ (endpoint (fetches w) = inl e /\ is_RequestException e = false)).
Proof.
  rewrite get_signing_keys_eq. destruct (cache_hit w); [discriminate|].
  destruct (endpoint (fetches w)) as [e0|ks]; [|discriminate].
  intros H. injection H as <- <-. repeat split.
  destruct (is_RequestException e0) eqn:E; auto.
Qed.

(** A key set that [get_signing_keys] returns is the one the cache holds
    afterwards. *)
Lemma get_signing_keys_returns_cached w ks w' :
  get_signing_keys w = (inr ks, w') -> keys (_signing_keys_cache w') = ks.
Proof.
  rewrite get_signing_keys_eq. destruct (cache_hit w).
  - intros H. injection H as <- <-. reflexivity.
  - destruct (endpoint (fetches w)); [discriminate|].
    intros H. injection H as <- <-. reflexivity.
Qed.

Lemma get_signing_keys_counts w :
  (fetches (snd (get_signing_keys w)) <= S (fetches w))%nat
  /\ ticks (snd (get_signing_keys w)) = S (ticks w).
Proof.
  rewrite get_signing_keys_eq.
  destruct (cache_hit w); [|destruct (endpoint (fetches w))]; simpl; lia.
Qed.

Lemma validate_with_key_keeps token key w :
  let w' := snd (validate_with_key token key w) in
  _signing_keys_cache w' = _signing_keys_cache w
  /\ fetches w' = fetches w /\ ticks w' = ticks w.
Proof.
  rewrite validate_with_key_eq. cbv zeta.
  destruct (jose_decode token key _ None None _); [simpl; auto|].
  destruct (py_eq _ (JStr ISSUER_V1)); [simpl; auto|].
  destruct (py_eq _ (JStr ISSUER_V2)); simpl; auto.
Qed.

Lemma select_signing_key_counts token w :
  let w' := snd (select_signing_key token w) in
  (fetches w' <= fetches w + 2)%nat /\ (ticks w' <= ticks w + 2)%nat.
Proof.
  rewrite select_signing_key_eq.
  pose proof (get_signing_keys_counts w) as [Hf Ht].
  destruct (get_signing_keys w) as [[e|jwks] w1]; simpl in *; [lia|].
  destruct (jose_get_unverified_header token) as [e|hdr]; simpl; [lia|].
  destruct (truthy _); simpl; [|lia].
  destruct (scan_jwks jwks _ JNull) as [e|sk]; simpl; [lia|].
  destruct (truthy sk); simpl; [lia|].
  pose proof (get_signing_keys_counts (invalidated (log (EvHeader token) w1)))
    as [Hf2 Ht2].
  destruct (get_signing_keys _) as [[e|jwks2] w2]; simpl in *; [lia|].
  destruct (scan_jwks jwks2 _ sk) as [e|sk2]; simpl; [lia|].
  destruct (truthy sk2); simpl; lia.
Qed.

(** X3. One call of [verify_token] sends at most two requests to the
    key-publication endpoint and reads the clock at most twice, whatever the
    token, the cache and the answers of the endpoint are. *)
Theorem verify_token_cost_bound token w :
  (fetches (snd (verify_token token w)) <= fetches w + 2)%nat
  /\ (ticks (snd (verify_token token w)) <= ticks w + 2)%nat.
Proof.
  destruct config_missing eqn:Hc.
  - unfold verify_token. rewrite Hc. simpl. lia.
  - rewrite (verify_token_eq _ _ Hc), verify_token_body_eq.
    pose proof (select_signing_key_counts token w) as Hs. cbv zeta in Hs.
    destruct (select_signing_key token w) as [[e|key] w1]; simpl in *; [exact Hs|].
    pose proof (validate_with_key_keeps token key w1) as Hv. cbv zeta in Hv.
    destruct (validate_with_key token key w1) as [[e|p] w2]; simpl in *;
      destruct Hv as (_ & -> & ->); exact Hs.
Qed.

(** X4. When the cache answers and holds the key the token names, the whole
    verification sends no request and leaves the cache as it is, whether the
    validation then succeeds or not. *)
Theorem verify_token_cached_key_no_fetch token w hdr key :
  config_missing = false ->
  cache_hit w = true ->
  jose_get_unverified_header token = inr hdr ->
  truthy (dict_get hdr "kid" JNull) = true ->
  kid_selects (keys (_signing_keys_cache w)) (dict_get hdr "kid" JNull) key ->
  select_signing_key token w = (inr key, log (EvHeader token) (after_cache_hit w))
  /\ fetches (snd (verify_token token w)) = fetches w
  /\ _signing_keys_cache (snd (verify_token token w)) = _signing_keys_cache w.
Proof.
  intros Hc Hhit Hh Hk Hs.
  assert (Hg : get_signing_keys w
               = (inr (keys (_signing_keys_cache w)), after_cache_hit w)).
  { rewrite get_signing_keys_eq, Hhit. reflexivity. }
  pose proof (select_cached_key _ _ _ _ _ _ Hg Hh Hk Hs) as Hsel.
  split; [exact Hsel|].
  rewrite (verify_token_eq _ _ Hc), (body_of_select _ _ _ _ Hsel).
  pose proof (validate_with_key_keeps token key
                (log (EvHeader token) (after_cache_hit w))) as Hv. cbv zeta in Hv.
  destruct (validate_with_key token key _) as [[e|p] w2]; simpl in *;
    destruct Hv as (-> & -> & _); auto.
Qed.

(** X5. When the cached key set lacks the token's [kid] and the refresh request
    raises a [RequestException], the caller gets 401 "Authentication failed"
    and the cache is left invalidated: the key set it held is gone. *)
Theorem verify_token_failed_refresh_empties_cache token w hdr m :
  config_missing = false ->
  cache_hit w = true ->
  jose_get_unverified_header token = inr hdr ->
  truthy (dict_get hdr "kid" JNull) = true ->
  kid_absent (keys (_signing_keys_cache w)) (dict_get hdr "kid" JNull) ->
  endpoint (fetches w) = inl (RequestException m) ->
  let w' := after_failed_fetch (invalidated (log (EvHeader token) (after_cache_hit w))) in
  verify_token token w = (inl (HTTPException 401 "Authentication failed"), w')
  /\ _signing_keys_cache w' = mkCache JNull 0
  /\ fetches w' = S (fetches w).
Proof.
  intros Hc Hhit Hh Hk Ha Hf w'.
  assert (Hsel : select_signing_key token w
     = (inl (HTTPException 503 "Service unavailable - unable to fetch signing keys"), w')).
  { rewrite select_signing_key_eq, get_signing_keys_eq, Hhit, Hh. cbv zeta.
    unfold kid_absent in Ha. rewrite Hk, Ha. simpl truthy. cbv iota.
    rewrite get_signing_keys_eq, cache_hit_invalidated. simpl fetches.
    rewrite Hf. reflexivity. }
  split; [|split; reflexivity].
  apply (verify_of_body_error _ _ _ _ Hc (body_of_select_error _ _ _ _ Hsel)).
Qed.

(** X6. Once a key is selected: when the unverified decode raises, the verified
    decode is not called; when the issuer is an accepted one and the verified
    decode raises, no payload is returned.  In both cases a [JWTError]
    reaches the caller as 401 "Invalid or expired token" and any other
    exception as 401 "Authentication failed". *)
Theorem verify_token_decode_failure token w key w1 :
  config_missing = false ->
  select_signing_key token w = (inr key, w1) ->
  (forall e,
      jose_decode token key ["RS256"%string] None None verify_options_off = inl e ->
      verify_token token w
      = (inl (surfaced e),
         log (EvDecode token key ["RS256"%string] None None verify_options_off) w1))
  /\ (forall up expected_issuer e,
        jose_decode token key ["RS256"%string] None None verify_options_off = inr up ->
        expected_issuer = ISSUER_V1 \/ expected_issuer = ISSUER_V2 ->
        dict_get up "iss" JNull = JStr expected_issuer ->
        jose_decode token key ["RS256"%string] (Some AUDIENCE) (Some expected_issuer)
          verify_options_on = inl e ->
        verify_token token w
        = (inl (surfaced e),
           log (EvDecode token key ["RS256"%string] (Some AUDIENCE)
                  (Some expected_issuer) verify_options_on)
             (log (EvDecode token key ["RS256"%string] None None verify_options_off)
                w1))).
Proof.
  intros Hc Hsel. split.
  - intros e Hd. apply (verify_of_body_error _ _ _ _ Hc).
    rewrite (body_of_select _ _ _ _ Hsel), validate_with_key_eq, Hd. reflexivity.
  - intros up expected_issuer e Hd Hacc Hiss Hv.
    apply (verify_of_body_error _ _ _ _ Hc).
    rewrite (body_of_select _ _ _ _ Hsel).
    rewrite (validate_accepted_issuer _ _ _ _ _ Hd Hacc Hiss), Hv. reflexivity.
Qed.

(** X7. A key set that is not a JSON object (an array, a string, a number) is
    stored like any other; looking a key up in it raises [AttributeError],
    which reaches the caller as 401 "Authentication failed" straight after
    the header is read: the cache is not invalidated and no refresh is
    tried, so the stored value stays. *)
Theorem verify_token_key_set_not_object token w jwks w1 hdr :
  config_missing = false ->
  get_signing_keys w = (inr jwks, w1) ->
  (forall d, jwks <> JObj d) ->
  jose_get_unverified_header token = inr hdr ->
  truthy (dict_get hdr "kid" JNull) = true ->
  verify_token_body token w = (inl AttributeError, log (EvHeader token) w1)
  /\ verify_token token w
     = (inl (HTTPException 401 "Authentication failed"), log (EvHeader token) w1)
  /\ keys (_signing_keys_cache (log (EvHeader token) w1)) = jwks.
Proof.
  intros Hc Hg Hn Hh Hk.
  assert (Hb : verify_token_body token w = (inl AttributeError, log (EvHeader token) w1)).
  { apply body_of_select_error.
    rewrite select_signing_key_eq, Hg, Hh. cbv zeta. rewrite Hk.
    destruct jwks as [| | | | |d]; try reflexivity.
    exfalso. apply (Hn d). reflexivity. }
  split; [exact Hb|]. split; [apply (verify_of_body_error _ _ _ _ Hc Hb)|].
  apply (get_signing_keys_returns_cached _ _ _ Hg).
Qed.

(** X8. The lookup stops on the first item whose ["kid"] equals the token's:
    what follows it in the key set, well formed or not, is not looked at. *)
Theorem find_key_first_match pre d post key_id signing_key :
  Forall (fun key => exists d', key = JObj d'
                                /\ py_eq (dict_get d' "kid" JNull) key_id = false) pre ->
  py_eq (dict_get d "kid" JNull) key_id = true ->
  find_key (pre ++ JObj d :: post) key_id signing_key = inr (JObj d).
Proof.
  intros Hpre Hd. induction Hpre as [|k pre (d' & -> & Hne) _ IH]; simpl.
  - rewrite Hd. reflexivity.
  - rewrite Hne. exact IH.
Qed.

(** ** Strings *)

Lemma length_append a b :
  String.length (a ++ b)%string = (String.length a + String.length b)%nat.
Proof. induction a as [|c a IH]; simpl; [reflexivity|now rewrite IH]. Qed.

Lemma string_app_assoc a b c : ((a ++ b) ++ c = a ++ (b ++ c))%string.
Proof. induction a as [|x a IH]; simpl; [reflexivity|now rewrite IH]. Qed.

Lemma substring_all s : substring 0 (String.length s) s = s.
Proof. induction s as [|c s IH]; simpl; [reflexivity|now rewrite IH]. Qed.

Lemma substring_0_0 s : substring 0 0 s = EmptyString.
Proof. destruct s; reflexivity. Qed.

Lemma substring_split s n :
  (n <= String.length s)%nat ->
  s = (substring 0 n s ++ substring n (String.length s - n) s)%string.
Proof.
  revert n. induction s as [|c s IH]; intros [|n] H; simpl in *; try lia.
  - reflexivity.
  - now rewrite substring_all.
  - rewrite <- IH by lia. reflexivity.
Qed.

Lemma length_substring s n m :
  (n + m <= String.length s)%nat -> String.length (substring n m s) = m.
Proof.
  revert n m. induction s as [|c s IH]; intros [|n] [|m] H; simpl in *;
    try lia; try reflexivity.
  - now rewrite IH by lia.
  - apply IH. lia.
  - apply IH. lia.
Qed.

Lemma length_substring_le s m : (String.length (substring 0 m s) <= m)%nat.
Proof.
  revert m. induction s as [|c s IH]; intros [|m]; simpl; try lia.
  specialize (IH m). lia.
Qed.

Lemma substring_prefix_app a t : substring 0 (String.length a) (a ++ t) = a.
Proof.
  induction a as [|c a IH]; simpl; [apply substring_0_0|now rewrite IH].
Qed.

Lemma substring_suffix_app t b :
  substring (String.length t) (String.length b) (t ++ b) = b.
Proof. induction t as [|c t IH]; simpl; [apply substring_all|exact IH]. Qed.

Lemma last_chars_app t b : last_chars (String.length b) (t ++ b) = b.
Proof.
  unfold last_chars. rewrite length_append.
  replace (String.length t + String.length b - String.length b)%nat
    with (String.length t) by lia.
  apply substring_suffix_app.
Qed.

(** A string of eight characters or more is four characters, a middle, and
    four characters. *)
Lemma string_ends s :
  (8 <= String.length s)%nat ->
  exists a mid b,
    s = (a ++ mid ++ b)%string /\ String.length a = 4%nat /\ String.length b = 4%nat
    /\ String.length mid = (String.length s - 8)%nat.
Proof.
  intros H.
  pose proof (substring_split s 4 ltac:(lia)) as Hs.
  set (a := substring 0 4 s) in *.
  set (r := substring 4 (String.length s - 4) s) in *.
  assert (Ha : String.length a = 4%nat) by (apply length_substring; lia).
  assert (Hr : String.length r = (String.length s - 4)%nat)
    by (apply length_substring; lia).
  pose proof (substring_split r (String.length r - 4) ltac:(lia)) as Hrs.
  exists a, (substring 0 (String.length r - 4) r),
    (substring (String.length r - 4) (String.length r - (String.length r - 4)) r).
  split; [rewrite <- Hrs; exact Hs|]. split; [exact Ha|]. split.
  - rewrite length_substring by lia. lia.
  - rewrite length_substring by lia. lia.
Qed.

Lemma upper_ascii_idem c : upper_ascii (upper_ascii c) = upper_ascii c.
Proof. destruct c as [[] [] [] [] [] [] [] []]; reflexivity. Qed.

Lemma upper_idem s : upper (upper s) = upper s.
Proof.
  induction s as [|c s IH]; simpl; [reflexivity|].
  now rewrite upper_ascii_idem, IH.
Qed.

(** ** parsers.py *)

(** X10. [map_checkov_severity] raises [AttributeError] on anything but a str; on
    a str it returns one of the five levels: the upper-cased argument when
    that is a level, and MEDIUM otherwise.  The five levels are mapped to
    themselves. *)
Theorem map_checkov_severity_levels severity :
  match severity with
  | JStr s =>
      exists level,
        In level severity_levels
        /\ map_checkov_severity (JStr s) = inr (JStr level)
        /\ map_checkov_severity (JStr level) = inr (JStr level)
        /\ (In (upper s) severity_levels -> level = upper s)
        /\ (~ In (upper s) severity_levels -> level = "MEDIUM"%string)
  | _ => map_checkov_severity severity = inl AttributeError
  end.
Proof.
  forget_unused.
  destruct severity as [| | |s| |]; try reflexivity.
  unfold map_checkov_severity. simpl py_upper. unfold rbind, dict_get, severity_map.
  simpl assoc. unfold severity_levels.
  destruct (upper s =? "CRITICAL")%string eqn:E1;
    [apply String.eqb_eq in E1; exists "CRITICAL"%string; rewrite E1; simpl; intuition|].
  destruct (upper s =? "HIGH")%string eqn:E2;
    [apply String.eqb_eq in E2; exists "HIGH"%string; rewrite E2; simpl; intuition|].
  destruct (upper s =? "MEDIUM")%string eqn:E3;
    [apply String.eqb_eq in E3; exists "MEDIUM"%string; rewrite E3; simpl; intuition|].
  destruct (upper s =? "LOW")%string eqn:E4;
    [apply String.eqb_eq in E4; exists "LOW"%string; rewrite E4; simpl; intuition|].
  destruct (upper s =? "INFO")%string eqn:E5;
    [apply String.eqb_eq in E5; exists "INFO"%string; rewrite E5; simpl; intuition|].
  exists "MEDIUM"%string. simpl. split; [intuition|]. split; [reflexivity|].
  split; [reflexivity|]. split; [|reflexivity].
  apply String.eqb_neq in E1, E2, E3, E4, E5.
  intros [H|[H|[H|[H|[H|[]]]]]]; congruence.
Qed.

(** X11. [redact_secret] on a str: fewer than eight characters give the fixed
    mask; otherwise the result is the first four characters, three dots and
    the last four, so that the middle of the secret, all but eight of its
    characters, is left out.  A secret of exactly eight characters has no
    middle: all of it is in the result. *)
Theorem redact_secret_string s :
  ((String.length s < 8)%nat -> redact_secret (JStr s) = inr "***REDACTED***"%string)
  /\ ((8 <= String.length s)%nat ->
      exists a mid b,
        s = (a ++ mid ++ b)%string
        /\ String.length a = 4%nat /\ String.length b = 4%nat
        /\ String.length mid = (String.length s - 8)%nat
        /\ redact_secret (JStr s) = inr (a ++ "..." ++ b)%string).
Proof.
  split.
  - intros H. unfold redact_secret. destruct (negb (truthy (JStr s))); [reflexivity|].
    simpl. apply Nat.ltb_lt in H. rewrite H. reflexivity.
  - intros H. destruct (string_ends s H) as (a & mid & b & Hs & Ha & Hb & Hm).
    exists a, mid, b. repeat (split; [assumption|]).
    unfold redact_secret.
    assert (Ht : truthy (JStr s) = true) by (destruct s; [simpl in H; lia|reflexivity]).
    rewrite Ht. simpl.
    assert (Hl : (String.length s <? 8)%nat = false) by (apply Nat.ltb_ge; exact H).
    rewrite Hl.
    assert (H1 : substring 0 4 s = a).
    { rewrite Hs, <- Ha. apply substring_prefix_app. }
    assert (H2 : last_chars 4 s = b).
    { rewrite Hs, <- Hb, <- string_app_assoc. apply last_chars_app. }
    rewrite H1, H2. reflexivity.
Qed.

Lemma map_checkov_severity_in_levels v r :
  map_checkov_severity v = inr r ->
  exists s level, v = JStr s /\ In level severity_levels /\ r = JStr level.
Proof.
  forget_unused.
  destruct v as [| | |s| |]; try discriminate.
  unfold map_checkov_severity. simpl py_upper. unfold rbind, dict_get, severity_map.
  simpl assoc. unfold severity_levels. intros H. exists s.
  destruct (upper s =? "CRITICAL")%string;
    [exists "CRITICAL"%string; simpl; intuition congruence|].
  destruct (upper s =? "HIGH")%string;
    [exists "HIGH"%string; simpl; intuition congruence|].
  destruct (upper s =? "MEDIUM")%string;
    [exists "MEDIUM"%string; simpl; intuition congruence|].
  destruct (upper s =? "LOW")%string;
    [exists "LOW"%string; simpl; intuition congruence|].
  destruct (upper s =? "INFO")%string;
    [exists "INFO"%string; simpl; intuition congruence|].
  exists "MEDIUM"%string; simpl; intuition congruence.
Qed.

Lemma checkov_findings_spec checks :
  forall n findings,
    checkov_findings checks n = inr findings ->
    Forall2 checkov_finding_of checks findings.
Proof.
  induction checks as [|check rest IH]; simpl; intros n findings H.
  - injection H as <-. constructor.
  - destruct check as [| | | | |c]; try discriminate. simpl in H.
    destruct (map_checkov_severity (dict_get c "severity" (JStr "MEDIUM")))
      as [e|sev] eqn:Hsev; [discriminate|]. simpl in H.
    destruct (if truthy (dict_get c "file_line_range" JNull)
              then py_index0 (dict_get c "file_line_range" (JArr [JInt 0]))
              else inr JNull) as [e|ln]; [discriminate|]. simpl in H.
    destruct (checkov_findings rest (S n)) as [e|fs] eqn:Hrest; [discriminate|].
    simpl in H. injection H as <-.
    constructor; [|apply (IH _ _ Hrest)].
    destruct (map_checkov_severity_in_levels _ _ Hsev) as (s & level & _ & Hin & ->).
    exists c, level. repeat split; auto.
Qed.

(** X12. When [parse_checkov] returns, the report had a list of failed checks
    and there is one finding per check, in the same order; every check was a
    dict, and the severity of its finding is one of the five levels (MEDIUM
    when the check has none). *)
Theorem parse_checkov_findings data findings :
  parse_checkov data = inr findings ->
  exists results failed_checks checks,
    py_get data "results" (JObj []) = inr results
    /\ py_get results "failed_checks" (JArr []) = inr failed_checks
    /\ py_iter failed_checks = inr checks
    /\ Forall2 checkov_finding_of checks findings.
Proof.
  unfold parse_checkov, rbind. intros H.
  destruct (py_get data "results" (JObj [])) as [e|results] eqn:H1; [discriminate|].
  destruct (py_get results "failed_checks" (JArr [])) as [e|failed] eqn:H2;
    [discriminate|].
  destruct (py_iter failed) as [e|checks] eqn:H3; [discriminate|].
  exists results, failed, checks.
  split; [reflexivity|]. split; [exact H2|]. split; [exact H3|].
  apply (checkov_findings_spec _ _ _ H).
Qed.

Lemma Forall2_In_left {A B} (R : A -> B -> Prop) l l' x :
  Forall2 R l l' -> In x l -> exists y, In y l' /\ R x y.
Proof.
  induction 1 as [|a b l l' Hab _ IH]; simpl; [tauto|].
  intros [<-|Hin].
  - exists b. auto.
  - destruct (IH Hin) as (y & Hy & HR). exists y. auto.
Qed.

Lemma checkov_findings_bad_severity checks c :
  In (JObj c) checks ->
  (forall s, dict_get c "severity" (JStr "MEDIUM") <> JStr s) ->
  forall n, exists e, checkov_findings checks n = inl e.
Proof.
  intros Hin Hbad n.
  destruct (checkov_findings checks n) as [e|findings] eqn:H; [eauto|].
  exfalso. apply checkov_findings_spec in H.
  destruct (Forall2_In_left _ _ _ _ H Hin) as (f & _ & c' & level & Hc & _ & Hsev & _).
  injection Hc as <-.
  destruct (map_checkov_severity_in_levels _ _ Hsev) as (s & _ & Hs & _).
  apply (Hbad s Hs).
Qed.

(** X13. One failed check whose ["severity"] is there but is not a str, such as
    the [null] Checkov writes when it knows none, makes [parse_checkov]
    raise: no finding of the report is returned. *)
Theorem parse_checkov_bad_severity data results failed_checks checks c :
  py_get data "results" (JObj []) = inr results ->
  py_get results "failed_checks" (JArr []) = inr failed_checks ->
  py_iter failed_checks = inr checks ->
  In (JObj c) checks ->
  (forall s, dict_get c "severity" (JStr "MEDIUM") <> JStr s) ->
  exists e, parse_checkov data = inl e.
Proof.
  intros H1 H2 H3 Hin Hbad. unfold parse_checkov, rbind. rewrite H1, H2, H3.
  apply (checkov_findings_bad_severity _ _ Hin Hbad).
Qed.

(** X14. A report that is a dict without the section the parser reads gives the
    empty list; a report that is not a dict makes [parse_checkov] and
    [parse_trivy] raise [AttributeError]. *)
Theorem parse_without_section data :
  match data with
  | JObj d =>
      (assoc "results" d = None -> parse_checkov data = inr [])
      /\ (assoc "Results" d = None -> parse_trivy data = inr [])
  | _ => parse_checkov data = inl AttributeError /\ parse_trivy data = inl AttributeError
  end.
Proof.
  destruct data as [| | | | |d]; try (split; reflexivity).
  split; intros H.
  - unfold parse_checkov, py_get, dict_get. rewrite H. reflexivity.
  - unfold parse_trivy, py_get, dict_get. rewrite H. reflexivity.
Qed.

(** X15. A dict without ["scan_metadata"] is read as a standard report even when
    it has ["secrets"]: [parse_gitleaks] looks at ["findings"] only, and
    returns the empty list when that is missing too. *)
Theorem parse_gitleaks_needs_scan_metadata d :
  assoc "scan_metadata" d = None ->
  parse_gitleaks (JObj d)
  = (leaks <-- py_iter (dict_get d "findings" (JArr [])) ;; gitleaks_leaks leaks)
  /\ (assoc "findings" d = None -> parse_gitleaks (JObj d) = inr []).
Proof.
  intros Hm.
  assert (Hd : is_deduplicated (JObj d) = inr false).
  { unfold is_deduplicated. simpl. rewrite Hm. destruct (assoc "secrets" d); reflexivity. }
  assert (Hp : parse_gitleaks (JObj d)
     = (leaks <-- py_iter (dict_get d "findings" (JArr [])) ;; gitleaks_leaks leaks)).
  { unfold parse_gitleaks. rewrite Hd. reflexivity. }
  split; [exact Hp|].
  intros Hf. rewrite Hp. unfold dict_get. rewrite Hf. reflexivity.
Qed.



Lemma gitleaks_locations_spec meta s repo_name locations :
  forall findings,
    gitleaks_locations meta s repo_name locations = inr findings ->
    List.length findings = List.length locations
    /\ Forall (deduplicated_finding_of meta s) findings.
Proof.
  induction locations as [|location rest IH]; simpl; intros findings H.
  - injection H as <-. split; [reflexivity|constructor].
  - destruct (py_slice_to 16 (dict_get s "secret_id" (JStr "UNKNOWN")))
      as [e|rule_id] eqn:Hr; [discriminate|]. simpl in H.
    destruct location as [| | | | |l]; try discriminate. simpl in H.
    destruct (gitleaks_locations meta s repo_name rest) as [e|fs]; [discriminate|].
    simpl in H. injection H as <-.
    destruct (IH fs eq_refl) as [Hlen Hall].
    split; [simpl; now rewrite Hlen|].
    constructor; [|exact Hall].
    unfold deduplicated_finding_of. simpl. repeat split.
    intros r Hrule. injection Hrule as ->.
    destruct (dict_get s "secret_id" (JStr "UNKNOWN")); try discriminate.
    + injection Hr as <-. apply length_substring_le.
Qed.

Lemma gitleaks_secrets_spec meta repo_name secrets :
  forall findings,
    gitleaks_secrets meta repo_name secrets = inr findings ->
    List.length findings = total_locations secrets
    /\ Forall (fun f => exists s, In (JObj s) secrets /\ deduplicated_finding_of meta s f)
         findings.
Proof.
  induction secrets as [|secret rest IH]; simpl; intros findings H.
  - injection H as <-. split; [reflexivity|constructor].
  - destruct secret as [| | | | |s]; try discriminate. simpl in H.
    destruct (py_iter (dict_get s "locations" (JArr []))) as [e|locations];
      [discriminate|]. simpl in H.
    destruct (gitleaks_locations meta s repo_name locations) as [e|here] eqn:Hhere;
      [discriminate|]. simpl in H.
    destruct (gitleaks_secrets meta repo_name rest) as [e|fs]; [discriminate|].
    simpl in H. injection H as <-.
    destruct (gitleaks_locations_spec _ _ _ _ _ Hhere) as [Hl Hh].
    destruct (IH fs eq_refl) as [Hlen Hall].
    split; [rewrite length_app; lia|].
    apply Forall_app. split.
    + eapply Forall_impl; [|exact Hh]. intros f Hf. exists s. auto.
    + eapply Forall_impl; [|exact Hall]. intros f (s' & Hin & Hf). exists s'. auto.
Qed.

(** X17. A deduplicated report, with its list of secrets and its metadata: when
    [parse_gitleaks] returns, there is one finding per listed location (a
    secret without location gives none); each has no commit and no author,
    the scan date of the metadata, a rule id of at most 16 characters when it
    is a str, and the severity and the displayed match of its secret as the
    report gives them, unchecked and not redacted again. *)
Theorem parse_gitleaks_deduplicated d meta secrets findings :
  assoc "secrets" d = Some (JArr secrets) ->
  assoc "scan_metadata" d = Some (JObj meta) ->
  parse_gitleaks (JObj d) = inr findings ->
  List.length findings = total_locations secrets
  /\ Forall (fun f => exists s, In (JObj s) secrets /\ deduplicated_finding_of meta s f)
       findings.
Proof.
  intros Hs Hm. unfold parse_gitleaks, is_deduplicated. simpl.
  rewrite Hs, Hm. simpl. unfold dict_index, dict_get. rewrite Hs, Hm. simpl.
  apply gitleaks_secrets_spec.
Qed.

Lemma trivy_misconfigs_spec r misconfigs :
  forall findings,
    trivy_misconfigs (dict_get r "Target" (JStr "")) misconfigs = inr findings ->
    Forall (trivy_finding_of r) findings.
Proof.
  induction misconfigs as [|misconfig rest IH]; simpl; intros findings H.
  - injection H as <-. constructor.
  - destruct misconfig as [| | | | |m]; try discriminate. simpl in H.
    destruct (py_upper (dict_get m "Severity" (JStr "MEDIUM"))) as [e|sev] eqn:Hsev;
      [discriminate|]. simpl in H.
    destruct (py_get (dict_get m "CauseMetadata" (JObj [])) "StartLine" (JInt 0))
      as [e|a]; [discriminate|]. simpl in H.
    destruct (py_get (dict_get m "CauseMetadata" (JObj [])) "EndLine" (JInt 0))
      as [e|b]; [discriminate|]. simpl in H.
    destruct (trivy_misconfigs (dict_get r "Target" (JStr "")) rest) as [e|fs];
      [discriminate|]. simpl in H. injection H as <-.
    constructor; [|apply IH; reflexivity].
    unfold trivy_finding_of. simpl. split; [reflexivity|]. split.
    + exists sev. split; [reflexivity|].
      destruct (dict_get m "Severity" (JStr "MEDIUM")); try discriminate.
      injection Hsev as <-. apply upper_idem.
    + exists a, b. reflexivity.
Qed.

Lemma trivy_results_spec results :
  forall findings,
    trivy_results results = inr findings ->
    Forall (fun f => exists r, In (JObj r) results /\ trivy_finding_of r f) findings.
Proof.
  induction results as [|result rest IH]; simpl; intros findings H.
  - injection H as <-. constructor.
  - destruct result as [| | | | |r]; try discriminate. simpl in H.
    destruct (py_iter (dict_get r "Misconfigurations" (JArr []))) as [e|ms];
      [discriminate|]. simpl in H.
    destruct (trivy_misconfigs (dict_get r "Target" (JStr "")) ms) as [e|here] eqn:Hhere;
      [discriminate|]. simpl in H.
    destruct (trivy_results rest) as [e|fs]; [discriminate|].
    simpl in H. injection H as <-.
    apply Forall_app. split.
    + eapply Forall_impl; [|apply (trivy_misconfigs_spec _ _ _ Hhere)].
      intros f Hf. exists r. auto.
    + eapply Forall_impl; [|apply IH; reflexivity].
      intros f (r' & Hin & Hf). exists r'. auto.
Qed.

(** X18. When [parse_trivy] returns, every finding comes from one result of the
    report: its file path is that result's target, its severity is an
    upper-case str, and its line range has two items. *)
Theorem parse_trivy_findings data findings :
  parse_trivy data = inr findings ->
  exists results rs,
    py_get data "Results" (JArr []) = inr results
    /\ py_iter results = inr rs
    /\ Forall (fun f => exists r, In (JObj r) rs /\ trivy_finding_of r f) findings.
Proof.
  unfold parse_trivy, rbind. intros H.
  destruct (py_get data "Results" (JArr [])) as [e|results] eqn:H1; [discriminate|].
  destruct (py_iter results) as [e|rs] eqn:H2; [discriminate|].
  exists results, rs. split; [reflexivity|]. split; [exact H2|].
  apply (trivy_results_spec _ _ H).
Qed.

(** ** main.py *)

Lemma assoc_dict_set_same d k v : assoc k (dict_set d k v) = Some v.
Proof.
  induction d as [|[k' v'] d IH]; simpl.
  - now rewrite String.eqb_refl.
  - destruct (k =? k')%string eqn:E; simpl; rewrite E; [reflexivity|exact IH].
Qed.

Lemma assoc_dict_set_other d k k' v :
  k' <> k -> assoc k' (dict_set d k v) = assoc k' d.
Proof.
  intros Hne. induction d as [|[k0 v0] d IH]; simpl.
  - apply String.eqb_neq in Hne. now rewrite Hne.
  - destruct (k =? k0)%string eqn:E; simpl.
    + apply String.eqb_eq in E. subst k0.
      apply String.eqb_neq in Hne. now rewrite Hne.
    + destruct (k' =? k0)%string; [reflexivity|exact IH].
Qed.

Lemma assoc_set_allowed_field update_data finding field k :
  assoc k (set_allowed_field update_data finding field)
  = if (k =? field)%string then
      match assoc field update_data with
      | Some v => Some v
      | None => assoc k finding
      end
    else assoc k finding.
Proof.
  unfold set_allowed_field.
  destruct (k =? field)%string eqn:E.
  - apply String.eqb_eq in E. subst k.
    destruct (assoc field update_data); [apply assoc_dict_set_same|reflexivity].
  - apply String.eqb_neq in E.
    destruct (assoc field update_data); [apply assoc_dict_set_other; exact E|reflexivity].
Qed.

Lemma length_list_set {A} n (x : A) l : List.length (list_set n x l) = List.length l.
Proof.
  revert n. induction l as [|y l IH]; intros [|n]; simpl; auto.
Qed.

Lemma nth_error_list_set_same {A} n (x : A) l :
  (n < List.length l)%nat -> nth_error (list_set n x l) n = Some x.
Proof.
  revert n. induction l as [|y l IH]; intros [|n] H; simpl in *; try lia.
  - reflexivity.
  - apply IH. lia.
Qed.

Lemma nth_error_list_set_other {A} n (x : A) l j :
  j <> n -> nth_error (list_set n x l) j = nth_error l j.
Proof.
  revert n j. induction l as [|y l IH]; intros [|n] [|j] H; simpl; try reflexivity.
  - congruence.
  - apply IH. congruence.
Qed.

Lemma nth_error_nth_default {A} n (l : list A) d :
  (n < List.length l)%nat -> nth_error l n = Some (nth n l d).
Proof.
  revert n. induction l as [|y l IH]; intros [|n] H; simpl in *; try lia.
  - reflexivity.
  - apply IH. lia.
Qed.

(** X19. [update_secret_finding] leaves the cloud and the IaC findings alone and
    keeps the number of secret findings.  With an index outside the list it
    returns the pair of the error and 404 and changes nothing.  With an index
    inside, only the finding at that index changes, and in it only
    ["status"] and ["notes"]: each takes the value the update gives it, if
    any; every other field of the finding keeps its value, whatever the
    update holds. *)
Theorem update_secret_finding_effect index update_data user st :
  let (r, st') := update_secret_finding index update_data user st in
  cloud st' = cloud st /\ iac st' = iac st
  /\ List.length (secrets st') = List.length (secrets st)
  /\ if (index <? 0) || (Z.of_nat (List.length (secrets st)) <=? index) then
       r = BodyAndCode [("error", JStr "Finding not found")] 404
       /\ secrets st' = secrets st
     else
       exists f f',
         nth_error (secrets st) (Z.to_nat index) = Some f
         /\ nth_error (secrets st') (Z.to_nat index) = Some f'
         /\ r = Body [("message", JStr "Finding updated"); ("finding", JObj f')]
         /\ (forall j, j <> Z.to_nat index ->
               nth_error (secrets st') j = nth_error (secrets st) j)
         /\ (forall k, k <> "status"%string -> k <> "notes"%string ->
               assoc k f' = assoc k f)
         /\ (forall k, k = "status"%string \/ k = "notes"%string ->
               assoc k f' = match assoc k update_data with
                            | Some v => Some v
                            | None => assoc k f
                            end).
Proof.
  unfold update_secret_finding, update_finding.
  destruct ((index <? 0) || (Z.of_nat (List.length (secrets st)) <=? index)) eqn:E;
    simpl.
  - auto.
  - apply orb_false_iff in E. destruct E as [E1 E2].
    apply Z.ltb_ge in E1. apply Z.leb_gt in E2.
    assert (Hn : (Z.to_nat index < List.length (secrets st))%nat) by lia.
    split; [reflexivity|]. split; [reflexivity|].
    split; [apply length_list_set|].
    exists (nth (Z.to_nat index) (secrets st) []). eexists.
    split; [apply nth_error_nth_default; exact Hn|].
    split; [apply nth_error_list_set_same; exact Hn|].
    split; [reflexivity|].
    split; [intros j Hj; apply nth_error_list_set_other; exact Hj|].
    split.
    + intros k H1 H2. rewrite !assoc_set_allowed_field.
      apply String.eqb_neq in H1, H2. now rewrite H1, H2.
    + intros k [-> | ->]; rewrite !assoc_set_allowed_field; simpl;
        destruct (assoc _ update_data); reflexivity.
Qed.

Lemma map_fst_bump s counts : map fst (bump s counts) = map fst counts.
Proof.
  induction counts as [|[k n] rest IH]; simpl; [reflexivity|].
  destruct (s =? k)%string; simpl; [reflexivity|now rewrite IH].
Qed.

Lemma count_for_bump level s counts :
  In level (map fst counts) ->
  count_for level (bump s counts)
  = (count_for level counts + if (s =? level)%string then 1 else 0)%nat.
Proof.
  forget_unused.
  induction counts as [|[k n] rest IH]; simpl; [tauto|].
  intros Hin. destruct (s =? k)%string eqn:Esk; simpl.
  - apply String.eqb_eq in Esk. subst k.
    destruct (level =? s)%string eqn:Els.
    + apply String.eqb_eq in Els. subst level. rewrite String.eqb_refl. lia.
    + rewrite String.eqb_sym, Els. lia.
  - destruct (level =? k)%string eqn:Elk.
    + apply String.eqb_eq in Elk. subst level. rewrite Esk. lia.
    + destruct Hin as [Hk|Hin]; [apply String.eqb_neq in Elk; congruence|].
      apply IH, Hin.
Qed.

Lemma count_severities_spec findings :
  forall counts counts',
    count_severities findings counts = inr counts' ->
    map fst counts' = map fst counts
    /\ (forall level, In level (map fst counts) ->
          count_for level counts'
          = (count_for level counts
             + List.length (filter (has_level level) findings))%nat)
    /\ Forall (fun f => exists s, dict_get f "severity" (JStr "INFO") = JStr s) findings.
Proof.
  induction findings as [|f rest IH]; intros counts counts' H.
  - simpl in *. injection H as <-.
    split; [reflexivity|]. split; [intros; lia|constructor].
  - simpl in H.
    destruct (dict_get f "severity" (JStr "INFO")) as [| | |s| |] eqn:Hs;
      try discriminate.
    simpl in H. destruct (IH _ _ H) as (Hk & Hc & Hall).
    rewrite map_fst_bump in Hk, Hc.
    split; [exact Hk|]. split; [|constructor; eauto].
    intros level Hin. rewrite (Hc level Hin), (count_for_bump _ _ _ Hin).
    cbn [filter].
    assert (Hh : has_level level f = (upper s =? level)%string)
      by (unfold has_level; rewrite Hs; reflexivity).
    rewrite Hh. destruct (upper s =? level)%string; simpl; lia.
Qed.

Lemma count_severities_total findings :
  forall counts,
    Forall (fun f => exists s, dict_get f "severity" (JStr "INFO") = JStr s) findings ->
    exists counts', count_severities findings counts = inr counts'.
Proof.
  induction findings as [|f rest IH]; simpl; intros counts H; [eauto|].
  inversion H as [|? ? (s & Hs) Hrest]; subst. rewrite Hs. simpl. apply IH, Hrest.
Qed.

Lemma count_severities_error findings :
  forall counts e, count_severities findings counts = inl e -> e = AttributeError.
Proof.
  induction findings as [|f rest IH]; simpl; intros counts e H; [discriminate|].
  destruct (dict_get f "severity" (JStr "INFO")); simpl in H;
    try (injection H as <-; reflexivity).
  apply (IH _ _ H).
Qed.

Lemma breakdown_succeeds_iff st :
  (exists counts, calculate_severity_breakdown st = inr counts)
  <-> Forall (fun f => exists s, dict_get f "severity" (JStr "INFO") = JStr s)
        (all_findings st).
Proof.
  unfold calculate_severity_breakdown, all_findings, rbind. split.
  - intros (counts & H).
    destruct (count_severities (cloud st) severity_counts0) as [e|c1] eqn:H1;
      [discriminate|].
    destruct (count_severities (secrets st) c1) as [e|c2] eqn:H2; [discriminate|].
    apply count_severities_spec in H1, H2, H.
    apply Forall_app. split; [apply H1|]. apply Forall_app. split; [apply H2|apply H].
  - intros H. apply Forall_app in H. destruct H as [Hc H].
    apply Forall_app in H. destruct H as [Hs Hi].
    destruct (count_severities_total _ severity_counts0 Hc) as (c1 & ->).
    destruct (count_severities_total _ c1 Hs) as (c2 & ->).
    apply (count_severities_total _ c2 Hi).
Qed.

(** X20. When [calculate_severity_breakdown] returns, its keys are the five
    levels, and the count of each level is the number of findings, over the
    three lists, whose severity upper-cased is that level; a finding whose
    severity is none of the five levels is counted nowhere. *)
Theorem calculate_severity_breakdown_counts st counts :
  calculate_severity_breakdown st = inr counts ->
  map fst counts = severity_levels
  /\ forall level, In level severity_levels ->
       count_for level counts = List.length (filter (has_level level) (all_findings st)).
Proof.
  unfold calculate_severity_breakdown, all_findings, rbind. intros H.
  destruct (count_severities (cloud st) severity_counts0) as [e|c1] eqn:H1;
    [discriminate|].
  destruct (count_severities (secrets st) c1) as [e|c2] eqn:H2; [discriminate|].
  apply count_severities_spec in H1, H2, H.
  destruct H1 as (K1 & C1 & _), H2 as (K2 & C2 & _), H as (K3 & C3 & _).
  split; [rewrite K3, K2, K1; reflexivity|].
  intros level Hin.
  rewrite C3 by (rewrite K2, K1; exact Hin).
  rewrite C2 by (rewrite K1; exact Hin).
  rewrite C1 by exact Hin.
  rewrite !filter_app, !length_app.
  assert (H0 : count_for level severity_counts0 = 0%nat).
  { simpl. repeat (destruct (level =? _)%string; [reflexivity|]). reflexivity. }
  rewrite H0. lia.
Qed.

(** X21. One stored finding whose severity is not a str makes
    [calculate_severity_breakdown], and with it [get_summary], raise
    [AttributeError]. *)
Theorem calculate_severity_breakdown_raises st f user :
  In f (all_findings st) ->
  (forall s, dict_get f "severity" (JStr "INFO") <> JStr s) ->
  calculate_severity_breakdown st = inl AttributeError
  /\ get_summary user st = inl AttributeError.
Proof.
  intros Hin Hbad.
  assert (H : calculate_severity_breakdown st = inl AttributeError).
  { destruct (calculate_severity_breakdown st) as [e|counts] eqn:E.
    - f_equal. revert E. unfold calculate_severity_breakdown, rbind.
      destruct (count_severities (cloud st) severity_counts0) as [e1|c1] eqn:H1.
      + intros E. injection E as <-. apply (count_severities_error _ _ _ H1).
      + destruct (count_severities (secrets st) c1) as [e2|c2] eqn:H2.
        * intros E. injection E as <-. apply (count_severities_error _ _ _ H2).
        * apply count_severities_error.
    - exfalso.
      assert (Hall : Forall (fun f => exists s, dict_get f "severity" (JStr "INFO") = JStr s)
                       (all_findings st)) by (apply breakdown_succeeds_iff; eauto).
      rewrite Forall_forall in Hall. destruct (Hall f Hin) as (s & Hs).
      apply (Hbad s Hs). }
  split; [exact H|]. unfold get_summary. rewrite H. reflexivity.
Qed.

(** X22. An upload of a Checkov report never breaks the summary: when the
    breakdown could be computed before [upload_checkov], it can be computed
    after it, whether the upload stored findings or raised. *)
Theorem upload_checkov_keeps_summary content user st counts :
  calculate_severity_breakdown st = inr counts ->
  exists counts',
    calculate_severity_breakdown (snd (upload_checkov content user st)) = inr counts'.
Proof.
  intros H. unfold upload_checkov.
  destruct (data <-- json_loads content ;; parse_checkov data) as [e|parsed] eqn:E;
    simpl; [eauto|].
  apply breakdown_succeeds_iff.
  assert (Hst : Forall (fun f => exists s, dict_get f "severity" (JStr "INFO") = JStr s)
                  (all_findings st)) by (apply breakdown_succeeds_iff; eauto).
  unfold all_findings in *. simpl.
  apply Forall_app in Hst. destruct Hst as [Hc Hrest].
  apply Forall_app. split; [|exact Hrest].
  apply Forall_app. split; [exact Hc|].
  unfold rbind in E. destruct (json_loads content) as [e|data]; [discriminate|].
  unfold parse_checkov, rbind in E.
  destruct (py_get data "results" (JObj [])) as [e|results]; [discriminate|].
  destruct (py_get results "failed_checks" (JArr [])) as [e|failed]; [discriminate|].
  destruct (py_iter failed) as [e|checks]; [discriminate|].
  apply checkov_findings_spec in E.
  clear - E. induction E as [|check f checks fs Hf _ IH]; constructor; [|exact IH].
  destruct Hf as (c & level & _ & _ & _ & Hsev & _).
  exists level. unfold dict_get. rewrite Hsev. reflexivity.
Qed.

(** X23. After [clear_all_findings] the three lists are empty: the breakdown is
    all zeros and every update, whatever its index, answers "Finding not
    found". *)
Theorem clear_all_findings_empties user st :
  let st' := snd (clear_all_findings user st) in
  all_findings st' = []
  /\ calculate_severity_breakdown st' = inr severity_counts0
  /\ forall index update_data,
       update_secret_finding index update_data user st'
       = (BodyAndCode [("error", JStr "Finding not found")] 404, st')
       /\ update_cloud_finding index update_data user st'
          = (BodyAndCode [("error", JStr "Finding not found")] 404, st')
       /\ update_iac_finding index update_data user st'
          = (BodyAndCode [("error", JStr "Finding not found")] 404, st').
Proof.
  simpl. split; [reflexivity|]. split; [reflexivity|].
  intros index update_data.
  unfold update_secret_finding, update_cloud_finding, update_iac_finding, update_finding.
  simpl.
  assert (E : (index <? 0) || (0 <=? index) = true).
  { destruct (index <? 0) eqn:E1; [reflexivity|].
    apply Z.ltb_ge in E1. apply Z.leb_le in E1. rewrite E1. reflexivity. }
  rewrite E. auto.
Qed.

End Auth.

(** ** The scenario, run *)

Section Runs.

Import Scenario.

Local Abbreviation verify_at endpoint :=
  (verify_token tenant client clock endpoint header_of decode).
Local Abbreviation body_at endpoint :=
  (verify_token_body tenant client clock endpoint header_of decode).

(** C5, witness: the old key set, fetched at instant 0, is returned from the
    cache at instant 10 and replaced at instant 4000. *)
Lemma get_signing_keys_freshness_witness :
  (get_signing_keys clock endpoint_K1 w_old_cached
   = (inr jwks_old, after_cache_hit w_old_cached)
   /\ fetches (after_cache_hit w_old_cached) = fetches w_old_cached
   /\ _signing_keys_cache (after_cache_hit w_old_cached)
      = _signing_keys_cache w_old_cached)
  /\ (fetches (snd (get_signing_keys clock endpoint_K1 w_old_expired))
      = S (fetches w_old_expired)
      /\ get_signing_keys clock endpoint_K1 w_old_expired
         = (inr jwks_K1, after_fetch jwks_K1 4000 w_old_expired)
      /\ _signing_keys_cache (after_fetch jwks_K1 4000 w_old_expired)
         = mkCache jwks_K1 (4000 + CACHE_TTL)).
Proof.
  assert (Hks : is_key_set jwks_old).
  { exists [("keys", JArr [key_K0])], (JArr [key_K0]). split; reflexivity. }
  split.
  - apply (proj1 (get_signing_keys_freshness clock endpoint_K1 w_old_cached
                    jwks_old 0 Hks eq_refl)). vm_compute. reflexivity.
  - assert (Hge : 0 + CACHE_TTL <= clock (ticks w_old_expired))
      by (vm_compute; discriminate).
    destruct (proj2 (get_signing_keys_freshness clock endpoint_K1 w_old_expired
                       jwks_old 0 Hks eq_refl) Hge) as [Hf Hk].
    split; [exact Hf|]. apply (Hk jwks_K1). reflexivity.
Defined.

(** C7, witness: no tenant identifier. *)
Lemma verify_token_config_error_witness :
  verify_token None client clock endpoint_K1 header_of decode "token-K1-v1" w_start
  = (inl (HTTPException 500 "Server configuration error - Azure AD not configured"),
     w_start).
Proof.
  apply (verify_token_config_error None client clock endpoint_K1 header_of decode).
  left. reflexivity.
Defined.

(** C1, witness: the endpoint is down when the process starts. *)
Lemma verify_token_fetch_failure_witness :
  get_signing_keys clock endpoint_down w_start
  = (inl (HTTPException 503 "Service unavailable - unable to fetch signing keys"),
     after_failed_fetch w_start)
  /\ verify_at endpoint_down "token-K1-v1" w_start
     = (inl (HTTPException 401 "Authentication failed"), after_failed_fetch w_start).
Proof.
  apply (verify_token_fetch_failure tenant client clock endpoint_down header_of decode
           "token-K1-v1" w_start "connect timeout"); reflexivity.
Defined.

(** C2, witness: a token signed with K1, once with the v1 issuer and once
    with an issuer that is not accepted. *)
Lemma verify_token_issuer_witness :
  verify_at endpoint_K1 "token-K1-v1" w_start
  = (inr (claims_of "token-K1-v1"),
     log (EvDecode "token-K1-v1" key_K1 ["RS256"%string] (Some "api://C1"%string)
            (Some issuer_v1) verify_options_on)
       (log (EvDecode "token-K1-v1" key_K1 ["RS256"%string] None None verify_options_off)
          (log (EvHeader "token-K1-v1") (after_fetch jwks_K1 0 w_start))))
  /\ verify_at endpoint_K1 "token-K1-other-issuer" w_start
     = (inl (HTTPException 401 "Authentication failed"),
        log (EvDecode "token-K1-other-issuer" key_K1 ["RS256"%string] None None
               verify_options_off)
          (log (EvHeader "token-K1-other-issuer") (after_fetch jwks_K1 0 w_start))).
Proof.
  split.
  - apply (proj1 (verify_token_issuer tenant client clock endpoint_K1 header_of decode
                    "token-K1-v1" w_start key_K1
                    (log (EvHeader "token-K1-v1") (after_fetch jwks_K1 0 w_start))
                    (claims_of "token-K1-v1") eq_refl eq_refl eq_refl)
             issuer_v1 (claims_of "token-K1-v1")).
    + left. reflexivity.
    + reflexivity.
    + reflexivity.
  - apply (proj2 (verify_token_issuer tenant client clock endpoint_K1 header_of decode
                    "token-K1-other-issuer" w_start key_K1
                    (log (EvHeader "token-K1-other-issuer") (after_fetch jwks_K1 0 w_start))
                    (claims_of "token-K1-other-issuer") eq_refl eq_refl eq_refl)).
    + vm_compute. discriminate.
    + vm_compute. discriminate.
Defined.

(** C3, witness: the old key set is cached, the token names K2, and the
    refetched set has K0 and K1 only. *)
Lemma verify_token_unknown_kid_witness :
  let w' := after_refresh "token-K2-v1" jwks_K1 20 (after_cache_hit w_old_cached) in
  body_at endpoint_K1 "token-K2-v1" w_old_cached
  = (inl (HTTPException 401 "Invalid token signature"), w')
  /\ verify_at endpoint_K1 "token-K2-v1" w_old_cached
     = (inl (HTTPException 401 "Authentication failed"), w')
  /\ fetches w' = 2%nat
  /\ trace w' = [EvTime; EvFetch; EvTime; EvHeader "token-K2-v1"; EvTime; EvFetch].
Proof.
  apply (verify_token_unknown_kid tenant client clock endpoint_K1 header_of decode
           "token-K2-v1" w_old_cached jwks_old (after_cache_hit w_old_cached)
           [("alg", JStr "RS256"); ("kid", JStr "K2")] jwks_K1);
    reflexivity.
Defined.

(** C4, witness: the old key set is cached, the token names K1, and the
    refetched set has it. *)
Lemma verify_token_after_rotation_witness :
  let w2 := after_refresh "token-K1-v1" jwks_K1 20 (after_cache_hit w_old_cached) in
  select_signing_key clock endpoint_K1 header_of "token-K1-v1" w_old_cached
  = (inr key_K1, w2)
  /\ fetches w2 = 2%nat
  /\ verify_at endpoint_K1 "token-K1-v1" w_old_cached
     = (inr (claims_of "token-K1-v1"),
        log (EvDecode "token-K1-v1" key_K1 ["RS256"%string] (Some "api://C1"%string)
               (Some issuer_v1) verify_options_on)
          (log (EvDecode "token-K1-v1" key_K1 ["RS256"%string] None None
                  verify_options_off) w2))
  /\ fetches (snd (verify_at endpoint_K1 "token-K1-v1" w_old_cached)) = 2%nat.
Proof.
  apply (verify_token_after_rotation tenant client clock endpoint_K1 header_of decode
           "token-K1-v1" w_old_cached jwks_old (after_cache_hit w_old_cached)
           [("alg", JStr "RS256"); ("kid", JStr "K1")] jwks_K1 key_K1
           (claims_of "token-K1-v1") issuer_v1 (claims_of "token-K1-v1"));
    try reflexivity.
  - split; reflexivity.
  - left. reflexivity.
Defined.

(** C8, witness: a token without [kid] and a token whose header cannot be
    parsed, each presented to a process that has nothing cached. *)
Lemma verify_token_requests_keys_before_header_witness :
  (exists rest, trace (after_fetch jwks_K1 0 w_start) = trace w_start ++ EvTime :: rest)
  /\ verify_at endpoint_K1 "garbage" w_start
     = (inl (HTTPException 401 "Invalid or expired token"),
        log (EvHeader "garbage") (after_fetch jwks_K1 0 w_start))
  /\ body_at endpoint_K1 "token-no-kid" w_start
     = (inl (HTTPException 401 "Invalid token format"),
        log (EvHeader "token-no-kid") (after_fetch jwks_K1 0 w_start))
  /\ verify_at endpoint_K1 "token-no-kid" w_start
     = (inl (HTTPException 401 "Authentication failed"),
        log (EvHeader "token-no-kid") (after_fetch jwks_K1 0 w_start)).
Proof.
  pose proof (verify_token_requests_keys_before_header tenant client clock endpoint_K1
                header_of decode "garbage" w_start (inr jwks_K1)
                (after_fetch jwks_K1 0 w_start) eq_refl eq_refl) as [Ht [Hg _]].
  pose proof (verify_token_requests_keys_before_header tenant client clock endpoint_K1
                header_of decode "token-no-kid" w_start (inr jwks_K1)
                (after_fetch jwks_K1 0 w_start) eq_refl eq_refl) as [_ [_ Hk]].
  split; [exact Ht|]. split; [exact (Hg _ eq_refl)|].
  exact (Hk [("alg", JStr "RS256"); ("typ", JStr "JWT")] eq_refl eq_refl).
Defined.

(** C8, counterexample: for a token without [kid], presented to a process
    that has nothing cached, the key set is requested, and fetched over the
    network, before the header is read. *)
Lemma verify_token_missing_kid_fetches_first :
  trace (snd (verify_at endpoint_K1 "token-no-kid" w_start))
  = [EvTime; EvFetch; EvHeader "token-no-kid"]
  /\ fetches (snd (verify_at endpoint_K1 "token-no-kid" w_start)) = 1%nat
  /\ fst (verify_at endpoint_K1 "token-no-kid" w_start)
     = inl (HTTPException 401 "Authentication failed").
Proof. vm_compute. repeat split. Qed.

(** C9, counterexample: the selected key declares RS384 in its material, and
    the verified decode is called with ["RS256"]. *)
Lemma verify_token_ignores_key_algorithm :
  py_get key_K384 "alg" JNull = inr (JStr "RS384")
  /\ trace (snd (verify_at endpoint_K384 "token-K384-v2" w_start))
     = [EvTime; EvFetch; EvHeader "token-K384-v2";
        EvDecode "token-K384-v2" key_K384 ["RS256"%string] None None verify_options_off;
        EvDecode "token-K384-v2" key_K384 ["RS256"%string] (Some "api://C1"%string)
          (Some issuer_v2) verify_options_on]
  /\ fst (verify_at endpoint_K384 "token-K384-v2" w_start)
     = inr (claims_of "token-K384-v2").
Proof. vm_compute. repeat split. Qed.

(** C10, witness: the 503 of a failed fetch and the 401 of an unknown issuer
    both reach the caller as 401 "Authentication failed"; without a client
    identifier the 500 of the configuration check does. *)
Lemma verify_token_generic_handler_witness :
  verify_token tenant None clock endpoint_K1 header_of decode "token-K1-v1" w_start
  = (inl (HTTPException 500 "Server configuration error - Azure AD not configured"),
     w_start)
  /\ body_at endpoint_down "token-K1-v1" w_start
     = (inl (HTTPException 503 "Service unavailable - unable to fetch signing keys"),
        after_failed_fetch w_start)
  /\ verify_at endpoint_down "token-K1-v1" w_start
     = (inl (HTTPException 401 "Authentication failed"), after_failed_fetch w_start).
Proof.
  pose proof (verify_token_generic_handler tenant None clock endpoint_K1 header_of
                decode "token-K1-v1" w_start) as [H500 _].
  pose proof (verify_token_generic_handler tenant client clock endpoint_down header_of
                decode "token-K1-v1" w_start) as [_ H].
  destruct (H eq_refl) as (_ & Hhttp & Hfetch & _).
  split; [exact (H500 eq_refl)|].
  split; [exact (Hfetch "connect timeout"%string eq_refl eq_refl)|].
  exact (Hhttp _ _ _ (Hfetch "connect timeout"%string eq_refl eq_refl)).
Defined.

End Runs.

(** ** More runs *)

Section MoreRuns.

Import Scenario Deployment Reports.

Local Abbreviation verify_at client endpoint :=
  (verify_token tenant client clock endpoint header_of decode).

(** X2, witness: the endpoint is down when the process starts: the cache stays empty. *)
Lemma get_signing_keys_failure_keeps_cache_witness :
  _signing_keys_cache (after_failed_fetch w_start) = _signing_keys_cache w_start
  /\ cache_hit clock w_start = false
  /\ fetches (after_failed_fetch w_start) = S (fetches w_start)
  /\ (HTTPException 503 "Service unavailable - unable to fetch signing keys"
      = HTTPException 503 "Service unavailable - unable to fetch signing keys"
      \/ (endpoint_down (fetches w_start)
          = inl (HTTPException 503 "Service unavailable - unable to fetch signing keys")
          /\ is_RequestException
               (HTTPException 503 "Service unavailable - unable to fetch signing keys")
             = false)).
Proof.
  apply (get_signing_keys_failure_keeps_cache clock endpoint_down w_start
           (HTTPException 503 "Service unavailable - unable to fetch signing keys")
           (after_failed_fetch w_start)).
  reflexivity.
Defined.

(** X4, witness: the current key set is cached and the token names K1: no request, even
    with the endpoint down. *)
Lemma verify_token_cached_key_no_fetch_witness :
  select_signing_key clock endpoint_down header_of "token-K1-v1" w_K1_cached
  = (inr key_K1, log (EvHeader "token-K1-v1") (after_cache_hit w_K1_cached))
  /\ fetches (snd (verify_at client endpoint_down "token-K1-v1" w_K1_cached))
     = fetches w_K1_cached
  /\ _signing_keys_cache (snd (verify_at client endpoint_down "token-K1-v1" w_K1_cached))
     = _signing_keys_cache w_K1_cached.
Proof.
  apply (verify_token_cached_key_no_fetch tenant client clock endpoint_down header_of
           decode "token-K1-v1" w_K1_cached
           [("alg", JStr "RS256"); ("kid", JStr "K1")] key_K1); try reflexivity.
  split; reflexivity.
Defined.

(** X5, witness: the old key set is cached, the token names K2 and the endpoint is down:
    the old key set is gone afterwards. *)
Lemma verify_token_failed_refresh_empties_cache_witness :
  let w' := after_failed_fetch
              (invalidated (log (EvHeader "token-K2-v1") (after_cache_hit w_old_cached))) in
  verify_at client endpoint_down "token-K2-v1" w_old_cached
  = (inl (HTTPException 401 "Authentication failed"), w')
  /\ _signing_keys_cache w' = mkCache JNull 0
  /\ fetches w' = S (fetches w_old_cached).
Proof.
  apply (verify_token_failed_refresh_empties_cache tenant client clock endpoint_down
           header_of decode "token-K2-v1" w_old_cached
           [("alg", JStr "RS256"); ("kid", JStr "K2")] "connect timeout");
    reflexivity.
Defined.

(** X6, witness: the token was issued for client C1 and the service is configured for
    C2: the verified decode raises a [JWTError]. *)
Lemma verify_token_decode_failure_witness :
  verify_at other_client endpoint_K1 "token-K1-v1" w_start
  = (inl (HTTPException 401 "Invalid or expired token"),
     log (EvDecode "token-K1-v1" key_K1 ["RS256"%string] (Some "api://C2"%string)
            (Some issuer_v1) verify_options_on)
       (log (EvDecode "token-K1-v1" key_K1 ["RS256"%string] None None verify_options_off)
          (log (EvHeader "token-K1-v1") (after_fetch jwks_K1 0 w_start)))).
Proof.
  apply (proj2 (verify_token_decode_failure tenant other_client clock endpoint_K1
                  header_of decode "token-K1-v1" w_start key_K1
                  (log (EvHeader "token-K1-v1") (after_fetch jwks_K1 0 w_start))
                  eq_refl eq_refl)
           (claims_of "token-K1-v1") issuer_v1
           (JWTError "Signature verification failed.")).
  - reflexivity.
  - left. reflexivity.
  - reflexivity.
  - reflexivity.
Defined.

(** X7, witness: the endpoint answers with the bare array of keys, K1 among them. *)
Lemma verify_token_key_set_not_object_witness :
  verify_token_body tenant client clock endpoint_array header_of decode
    "token-K1-v1" w_start
  = (inl AttributeError,
     log (EvHeader "token-K1-v1") (after_fetch (JArr [key_K0; key_K1]) 0 w_start))
  /\ verify_at client endpoint_array "token-K1-v1" w_start
     = (inl (HTTPException 401 "Authentication failed"),
        log (EvHeader "token-K1-v1") (after_fetch (JArr [key_K0; key_K1]) 0 w_start))
  /\ keys (_signing_keys_cache
             (log (EvHeader "token-K1-v1")
                (after_fetch (JArr [key_K0; key_K1]) 0 w_start)))
     = JArr [key_K0; key_K1].
Proof.
  apply (verify_token_key_set_not_object tenant client clock endpoint_array header_of
           decode "token-K1-v1" w_start (JArr [key_K0; key_K1])
           (after_fetch (JArr [key_K0; key_K1]) 0 w_start)
           [("alg", JStr "RS256"); ("kid", JStr "K1")]); try reflexivity.
  intros d. discriminate.
Defined.

(** X8, witness: K1 after K0, followed by an item that is no key at all. *)
Lemma find_key_first_match_witness :
  find_key ([key_K0] ++ key_K1 :: [JStr "junk"; key_K1]) (JStr "K1") JNull = inr key_K1.
Proof.
  apply (find_key_first_match [key_K0]
           [("kty", JStr "RSA"); ("kid", JStr "K1"); ("n", JStr "modulus")]
           [JStr "junk"; key_K1] (JStr "K1") JNull).
  - constructor; [|constructor].
    exists [("kty", JStr "RSA"); ("kid", JStr "K0"); ("n", JStr "old-modulus")].
    split; reflexivity.
  - reflexivity.
Defined.

(** X11, witness: a secret of eight characters is shown whole, around the dots. *)
Lemma redact_secret_string_witness :
  redact_secret repr (JStr "abc") = inr "***REDACTED***"%string
  /\ exists a mid b,
       "hunter22"%string = (a ++ mid ++ b)%string
       /\ String.length a = 4%nat /\ String.length b = 4%nat
       /\ String.length mid = (String.length "hunter22" - 8)%nat
       /\ redact_secret repr (JStr "hunter22") = inr (a ++ "..." ++ b)%string.
Proof.
  split.
  - apply (proj1 (redact_secret_string repr "abc")). simpl. lia.
  - apply (proj2 (redact_secret_string repr "hunter22")). simpl. lia.
Defined.

(** X12, witness. *)
Lemma parse_checkov_findings_witness :
  exists results failed_checks checks,
    py_get checkov_report "results" (JObj []) = inr results
    /\ py_get results "failed_checks" (JArr []) = inr failed_checks
    /\ py_iter failed_checks = inr checks
    /\ Forall2 checkov_finding_of checks
         [[("check_id", JStr "CKV_AWS_18"); ("check_name", JStr "S3 access logging");
           ("severity", JStr "HIGH"); ("resource", JStr "aws_s3_bucket.data");
           ("file_path", JStr "/main.tf"); ("line_number", JInt 12);
           ("description", JStr ""); ("remediation", JStr "");
           ("scan_timestamp", JStr "2024-05-01T12:00:00")]].
Proof.
  apply (parse_checkov_findings timestamps checkov_report). reflexivity.
Defined.

(** X13, witness: the second check of the report has the severity [null]. *)
Lemma parse_checkov_bad_severity_witness :
  exists e, parse_checkov timestamps checkov_report_null = inl e.
Proof.
  apply (parse_checkov_bad_severity timestamps checkov_report_null
           (JObj [("failed_checks", JArr [check_s3; check_null_severity])])
           (JArr [check_s3; check_null_severity]) [check_s3; check_null_severity]
           [("check_id", JStr "CKV_AWS_21"); ("check_name", JStr "S3 versioning");
            ("severity", JNull); ("resource", JStr "aws_s3_bucket.data");
            ("file_path", JStr "/main.tf"); ("file_line_range", JArr [JInt 12; JInt 30])]);
    try reflexivity.
  - right. left. reflexivity.
  - intros s. discriminate.
Defined.

(** X15, witness: secrets without the metadata section: nothing is read. *)
Lemma parse_gitleaks_needs_scan_metadata_witness :
  parse_gitleaks repr secrets_only_report
  = rbind (py_iter (dict_get [("secrets", JArr [secret_two_places])]
                     "findings" (JArr [])))
      (fun leaks => gitleaks_leaks repr leaks)
  /\ (assoc "findings" [("secrets", JArr [secret_two_places])] = None ->
      parse_gitleaks repr secrets_only_report = inr []).
Proof.
  apply (parse_gitleaks_needs_scan_metadata repr [("secrets", JArr [secret_two_places])]).
  reflexivity.
Defined.


(** X17, witness: two secrets, the first at two places and the second at none: two
    findings. *)
Lemma parse_gitleaks_deduplicated_witness :
  exists findings,
    parse_gitleaks repr deduplicated_report = inr findings
    /\ List.length findings = total_locations [secret_two_places; secret_no_place]
    /\ List.length findings = 2%nat
    /\ Forall (fun f => exists s,
                 In (JObj s) [secret_two_places; secret_no_place]
                 /\ deduplicated_finding_of
                      [("scan_date", JStr "2024-05-01"); ("repo_name", JStr "shop")] s f)
         findings.
Proof.
  destruct (parse_gitleaks repr deduplicated_report) as [e|findings] eqn:E;
    [discriminate E|].
  exists findings.
  pose proof (parse_gitleaks_deduplicated repr
                [("scan_metadata",
                  JObj [("scan_date", JStr "2024-05-01"); ("repo_name", JStr "shop")]);
                 ("secrets", JArr [secret_two_places; secret_no_place])]
                [("scan_date", JStr "2024-05-01"); ("repo_name", JStr "shop")]
                [secret_two_places; secret_no_place] findings eq_refl eq_refl E)
    as [Hlen Hall].
  split; [reflexivity|]. split; [exact Hlen|]. split; [|exact Hall].
  rewrite Hlen. reflexivity.
Defined.

(** X18, witness. *)
Lemma parse_trivy_findings_witness :
  exists results rs,
    py_get trivy_report "Results" (JArr []) = inr results
    /\ py_iter results = inr rs
    /\ Forall (fun f => exists r, In (JObj r) rs /\ trivy_finding_of r f)
         [[("check_id", JStr "AVD-AWS-0107"); ("check_name", JStr "Open ingress");
           ("severity", JStr "CRITICAL");
           ("resource_type", JStr "Terraform Security Check");
           ("resource_name", JStr ""); ("file_path", JStr "network.tf");
           ("line_range", JArr [JInt 4; JInt 9]); ("description", JStr "");
           ("remediation", JStr ""); ("references", JArr [])]].
Proof.
  apply (parse_trivy_findings trivy_report). reflexivity.
Defined.

(** X20, witness: one finding of severity "low" and one of severity "HIGH". *)
Lemma calculate_severity_breakdown_counts_witness :
  map fst [("CRITICAL", 0%nat); ("HIGH", 1%nat); ("MEDIUM", 0%nat); ("LOW", 1%nat);
           ("INFO", 0%nat)] = severity_levels
  /\ forall level, In level severity_levels ->
       count_for level [("CRITICAL", 0%nat); ("HIGH", 1%nat); ("MEDIUM", 0%nat);
                        ("LOW", 1%nat); ("INFO", 0%nat)]
       = List.length (filter (has_level level) (all_findings store)).
Proof.
  apply (calculate_severity_breakdown_counts store). reflexivity.
Defined.

(** X21, witness: a stored finding whose severity is [null]. *)
Lemma calculate_severity_breakdown_raises_witness :
  calculate_severity_breakdown store_null_severity = inl AttributeError
  /\ get_summary [] store_null_severity = inl AttributeError.
Proof.
  apply (calculate_severity_breakdown_raises store_null_severity finding_null_severity []).
  - right. left. reflexivity.
  - intros s. discriminate.
Defined.

(** X22, witness. *)
Lemma upload_checkov_keeps_summary_witness :
  exists counts',
    calculate_severity_breakdown (snd (upload_checkov timestamps loads "checkov" [] store))
    = inr counts'.
Proof.
  apply (upload_checkov_keeps_summary timestamps loads "checkov" [] store
           [("CRITICAL", 0%nat); ("HIGH", 1%nat); ("MEDIUM", 0%nat); ("LOW", 1%nat);
            ("INFO", 0%nat)]).
  reflexivity.
Defined.

End MoreRuns.
